(** * Session connections and the session registry

    A shallow embedding of the session layer of the services package:
    [restapi.ts] (the REST calls) and the [SessionConnection] class with its
    [Private] namespace.

    JavaScript objects live in a store and are named by references, so that
    the aliasing between the registry's arrays, the sessions and their kernel
    connections is the one of the program.  Everything the code does to its
    collaborators (signals, the console, the network) is recorded, in order,
    in a trace.  A rejected promise and a thrown exception are the same
    outcome, [Throw]; the store is kept on that path as well, because what
    was written before the throw stays written. *)

From Stdlib Require Import ZArith String Ascii.
From stdpp Require Import base option list strings gmap.

Local Open Scope string_scope.
Local Open Scope Z_scope.

(** ** Values *)

#[local] Set Warnings "-register-all".

(** The body of a response, once decoded. *)
Inductive JSON : Type :=
  | JNull
  | JBool (b : bool)
  | JNum (z : Z)
  | JStr (s : string)
  | JArr (items : list JSON)
  | JObj (fields : list (string * JSON)).

(** [Kernel.IModel]. *)
Record KernelModel : Type := { km_id : string; km_name : string }.

(** [Partial<Kernel.IModel>], the argument of [changeKernel]. *)
Record PartialKernelModel : Type :=
  { pk_id : option string; pk_name : option string }.

(** [Session.IModel].  [m_path] may be [undefined] ([None]): the [model]
    accessor hands out [_path], which the constructor takes from
    [options.path] as it comes. *)
Record IModel : Type :=
  { m_id : string;
    m_kernel : option KernelModel;
    m_path : option string;
    m_type : string;
    m_name : string }.

(** [ServerConnection.ISettings]; only [baseUrl] is read here. *)
Record ISettings : Type := { baseUrl : string }.

(** A kernel connection, as far as a session looks at it. *)
Record KernelConnection : Type :=
  { kc_id : string; kc_name : string; kc_isDisposed : bool }.

(** The injected kernel connector, taken to make a connection object of
    its own, which the store then holds behind a new reference. *)
Definition Connector : Type := KernelModel -> ISettings -> KernelConnection.

(** [Session.IOptions]; an absent member is [None]. *)
Record IOptions : Type :=
  { o_path : option string;
    o_type : option string;
    o_name : option string;
    o_kernelName : option string;
    o_kernelId : option string;
    o_serverSettings : option ISettings;
    o_connectToKernel : option Connector }.

(** References into the store. *)
Abbreviation SRef := nat (only parsing).
Abbreviation KRef := nat (only parsing).

(** The private fields of a [SessionConnection]; a null [_kernel] is [None]. *)
Record SessionConnection : Type :=
  { _id : string;
    _path : option string;
    _name : string;
    _type : string;
    _kernel : option KRef;
    _isDisposed : bool;
    _updating : bool;
    serverSettings : ISettings;
    _connectToKernel : option Connector }.

(** ** Requests, exceptions and the trace *)

Inductive Method : Type := GET | POST | PATCH | DELETE.

(** A call of [ServerConnection.makeRequest]: the url is kept as the
    arguments of [URLExt.join], the body as the value given to
    [JSON.stringify]. *)
Record Request : Type :=
  { rq_method : Method; rq_url : list string; rq_body : option JSON }.

(** What [makeRequest] resolves to.  [rs_json] is what [response.json()]
    gives: [None] when the body is not JSON and the promise rejects. *)
Record Response : Type := { rs_status : Z; rs_json : option JSON }.

Inductive Exn : Type :=
  | TypeError
  | SyntaxError
  | ReferenceError
  | NetworkError
  | ValidationError
  | Error (msg : string)
  | ResponseError (r : Response) (msg : option string).

Inductive Property : Type := PName | PType | PPath.

Inductive KernelSignal : Type :=
  | statusChanged | connectionStatusChanged | unhandledMessage
  | iopubMessage | anyMessage.

Inductive Effect : Type :=
  | EmitDisposed (s : SRef)
  | EmitKernelChanged (s : SRef) (oldValue newValue : option KRef)
  | EmitPropertyChanged (s : SRef) (p : Property)
  | Connect (k : KRef) (sig : KernelSignal) (s : SRef)
  | ClearData (s : SRef)
  | Warn (msg : JSON)
  | Fetch (r : Request).

(** ** The store *)

Record World : Type :=
  { sessions : list SessionConnection;
    kernels : list KernelConnection;
    runningSessions : gmap string (list SRef);
    trace : list Effect }.

Inductive Res (A : Type) : Type :=
  | Ok (a : A) (w : World)
  | Throw (e : Exn) (w : World).
Arguments Ok {A} a w.
Arguments Throw {A} e w.

Definition M (A : Type) : Type := World -> Res A.

Definition ret {A} (a : A) : M A := fun w => Ok a w.
Definition throw {A} (e : Exn) : M A := fun w => Throw e w.
Definition bind {A B} (m : M A) (k : A -> M B) : M B :=
  fun w => match m w with
           | Ok a w' => k a w'
           | Throw e w' => Throw e w'
           end.

(** [try { m } finally { c }]. *)
Definition finally {A} (m : M A) (c : M unit) : M A :=
  fun w => match m w with
           | Ok a w' =>
               match c w' with Ok _ w'' => Ok a w'' | Throw e w'' => Throw e w'' end
           | Throw e w' =>
               match c w' with Ok _ w'' => Throw e w'' | Throw e' w'' => Throw e' w'' end
           end.

Declare Scope js_scope.
Delimit Scope js_scope with js.
Notation "'let*' x := m 'in' k" := (bind m (fun x => k))
  (at level 10, x name, m at level 100, k at level 200) : js_scope.
Notation "m ;; k" := (bind m (fun _ => k))
  (at level 100, k at level 200, right associativity) : js_scope.
Local Open Scope js_scope.

Definition world_of {A} (r : Res A) : World :=
  match r with Ok _ w => w | Throw _ w => w end.

Definition with_sessions (l : list SessionConnection) (w : World) : World :=
  {| sessions := l; kernels := kernels w;
     runningSessions := runningSessions w; trace := trace w |}.
Definition with_kernels (l : list KernelConnection) (w : World) : World :=
  {| sessions := sessions w; kernels := l;
     runningSessions := runningSessions w; trace := trace w |}.
Definition with_trace (t : list Effect) (w : World) : World :=
  {| sessions := sessions w; kernels := kernels w;
     runningSessions := runningSessions w; trace := t |}.

(** One more entry in the trace. *)
Definition effect (e : Effect) : M unit :=
  fun w => Ok tt (with_trace (trace w ++ [e]) w).

(** Reading and writing the object behind a reference.  A reference that
    names nothing does not arise from the code; it is given its own
    exception rather than a made-up object. *)
Definition getS (self : SRef) : M SessionConnection :=
  fun w => match sessions w !! self with
           | Some s => Ok s w
           | None => Throw ReferenceError w
           end.

Definition modS (self : SRef) (f : SessionConnection -> SessionConnection)
  : M unit :=
  fun w => match sessions w !! self with
           | Some s => Ok tt (with_sessions (<[self := f s]> (sessions w)) w)
           | None => Throw ReferenceError w
           end.

Definition getK (k : KRef) : M KernelConnection :=
  fun w => match kernels w !! k with
           | Some c => Ok c w
           | None => Throw ReferenceError w
           end.

Definition newS (s : SessionConnection) : M SRef :=
  fun w => Ok (length (sessions w)) (with_sessions (sessions w ++ [s]) w).

Definition newK (c : KernelConnection) : M KRef :=
  fun w => Ok (length (kernels w)) (with_kernels (kernels w ++ [c]) w).

Definition modK (k : KRef) (f : KernelConnection -> KernelConnection)
  : M unit :=
  fun w => match kernels w !! k with
           | Some c => Ok tt (with_kernels (<[k := f c]> (kernels w)) w)
           | None => Throw ReferenceError w
           end.

(** Field assignments. *)
Definition set_path (v : option string) (s : SessionConnection) :=
  {| _id := _id s; _path := v; _name := _name s; _type := _type s;
     _kernel := _kernel s; _isDisposed := _isDisposed s;
     _updating := _updating s; serverSettings := serverSettings s;
     _connectToKernel := _connectToKernel s |}.
Definition set_name (v : string) (s : SessionConnection) :=
  {| _id := _id s; _path := _path s; _name := v; _type := _type s;
     _kernel := _kernel s; _isDisposed := _isDisposed s;
     _updating := _updating s; serverSettings := serverSettings s;
     _connectToKernel := _connectToKernel s |}.
Definition set_type (v : string) (s : SessionConnection) :=
  {| _id := _id s; _path := _path s; _name := _name s; _type := v;
     _kernel := _kernel s; _isDisposed := _isDisposed s;
     _updating := _updating s; serverSettings := serverSettings s;
     _connectToKernel := _connectToKernel s |}.
Definition set_kernel (v : option KRef) (s : SessionConnection) :=
  {| _id := _id s; _path := _path s; _name := _name s; _type := _type s;
     _kernel := v; _isDisposed := _isDisposed s;
     _updating := _updating s; serverSettings := serverSettings s;
     _connectToKernel := _connectToKernel s |}.
Definition set_isDisposed (v : bool) (s : SessionConnection) :=
  {| _id := _id s; _path := _path s; _name := _name s; _type := _type s;
     _kernel := _kernel s; _isDisposed := v;
     _updating := _updating s; serverSettings := serverSettings s;
     _connectToKernel := _connectToKernel s |}.
Definition set_updating (v : bool) (s : SessionConnection) :=
  {| _id := _id s; _path := _path s; _name := _name s; _type := _type s;
     _kernel := _kernel s; _isDisposed := _isDisposed s;
     _updating := v; serverSettings := serverSettings s;
     _connectToKernel := _connectToKernel s |}.

(** [kernel.dispose()]. *)
Definition disposed (c : KernelConnection) : KernelConnection :=
  {| kc_id := kc_id c; kc_name := kc_name c; kc_isDisposed := true |}.

Definition kernel_dispose (k : KRef) : M unit := modK k disposed.

(** ** JavaScript operators *)

(** [o || d] on a string that may be absent: the empty string is falsy. *)
Definition or_str (o : option string) (d : string) : string :=
  match o with
  | Some s => if bool_decide (s = "") then d else s
  | None => d
  end.

Definition truthy (j : JSON) : bool :=
  match j with
  | JNull => false
  | JBool b => b
  | JNum z => negb (z =? 0)
  | JStr s => negb (bool_decide (s = ""))
  | JArr _ | JObj _ => true
  end.

(** [o || d] on a value that may be [undefined]. *)
Definition or_json (o : option JSON) (d : JSON) : JSON :=
  match o with
  | Some v => if truthy v then v else d
  | None => d
  end.

Fixpoint assoc (k : string) (fs : list (string * JSON)) : option JSON :=
  match fs with
  | [] => None
  | (k', v) :: fs' => if bool_decide (k' = k) then Some v else assoc k fs'
  end.

(** [data.k]: a [TypeError] on [null], [undefined] ([None]) where the value
    has no such member. *)
Definition member (k : string) (data : JSON) : M (option JSON) :=
  match data with
  | JNull => throw TypeError
  | JObj fs => ret (assoc k fs)
  | _ => ret None
  end.

(** A member of an object literal handed to [JSON.stringify], which leaves
    out what is [undefined]. *)
Definition opt_member (k : string) (v : option string) : list (string * JSON) :=
  match v with Some s => [(k, JStr s)] | None => [] end.

Definition dquote : string := String (ascii_of_nat 34) EmptyString.

(** * The program *)

Section Program.

(** What the modules under study import and this development does not
    have the source of: [ServerConnection.makeSettings()], [validateModel]
    of [./validate] ([None] when it throws; otherwise the payload as a
    record), and the server reached through
    [ServerConnection.makeRequest], which answers a request knowing what
    happened before it ([None]: no response, the promise rejects). *)
Variable makeSettings : ISettings.
Variable validateModel : JSON -> option IModel.
Variable server : list Effect -> Request -> option Response.

(** ** restapi.ts *)

Definition SESSION_SERVICE_URL : string := "api/sessions".

(** [ServerConnection.makeRequest] in two halves, the request going out
    and the promise settling, and in one piece. *)
Definition request (rq : Request) : M unit := effect (Fetch rq).

Definition settle (answer : option Response) : M Response :=
  match answer with
  | Some r => ret r
  | None => throw NetworkError
  end.

Definition makeRequest (rq : Request) : M Response :=
  fun w => (request rq;; settle (server (trace w) rq)) w.

(** [response.json()]. *)
Definition json (r : Response) : M JSON :=
  match rs_json r with
  | Some d => ret d
  | None => throw SyntaxError
  end.

(** [validateModel(data); return data]. *)
Definition validated (data : JSON) : M IModel :=
  match validateModel data with
  | Some m => ret m
  | None => throw ValidationError
  end.

Definition getSessionUrl (base id : string) : list string :=
  [base; SESSION_SERVICE_URL; id].

Definition shutdownSession_request (id : string) (settings : option ISettings)
  : Request :=
  {| rq_method := DELETE;
     rq_url := getSessionUrl (baseUrl (default makeSettings settings)) id;
     rq_body := None |}.

Definition shutdownSession (id : string) (settings : option ISettings)
  : M unit :=
  let* response := makeRequest (shutdownSession_request id settings) in
  if rs_status response =? 404 then
    let* data := json response in
    let* message := member "message" data in
    let msg :=
      or_json message
        (JStr ("The session " ++ dquote ++ id ++ dquote ++ dquote
                 ++ " does not exist on the server")) in
    effect (Warn msg)
  else if rs_status response =? 410 then
    throw (ResponseError response
             (Some "The kernel was deleted but the session was not"))
  else if negb (rs_status response =? 204) then
    throw (ResponseError response None)
  else ret tt.

Definition startSession_request (options : IOptions) : Request :=
  {| rq_method := POST;
     rq_url := [baseUrl (default makeSettings (o_serverSettings options));
                SESSION_SERVICE_URL];
     rq_body :=
       Some (JObj ([("kernel",
                     JObj (opt_member "name" (o_kernelName options)
                             ++ opt_member "id" (o_kernelId options)))]
                     ++ opt_member "path" (o_path options)
                     ++ [("type", JStr (or_str (o_type options) ""));
                         ("name", JStr (or_str (o_name options) ""))])) |}.

Definition startSession (options : IOptions) : M IModel :=
  let* response := makeRequest (startSession_request options) in
  if negb (rs_status response =? 201) then throw (ResponseError response None)
  else
    let* data := json response in
    validated data.

Definition updateSession_request (id : string) (body : JSON)
    (settings : option ISettings) : Request :=
  {| rq_method := PATCH;
     rq_url := getSessionUrl (baseUrl (default makeSettings settings)) id;
     rq_body := Some body |}.

(** [updateSession] from the point where the response is there. *)
Definition updateSession_response (response : Response) : M IModel :=
  if negb (rs_status response =? 200) then throw (ResponseError response None)
  else
    let* data := json response in
    validated data.

Definition updateSession (id : string) (body : JSON)
    (settings : option ISettings) : M IModel :=
  let* response := makeRequest (updateSession_request id body settings) in
  updateSession_response response.

(** ** class SessionConnection *)

(** [this.kernel.m]: reading a member of the kernel connection throws on a
    null kernel. *)
Definition this_kernel (self : SRef) : M KRef :=
  let* s := getS self in
  match _kernel s with
  | Some k => ret k
  | None => throw TypeError
  end.

Definition setupKernel (self : SRef) (model : option KernelModel) : M unit :=
  match model with
  | None => modS self (set_kernel None)
  | Some km =>
      let* s := getS self in
      match _connectToKernel s with
      | None => throw TypeError
      | Some connect =>
          let* kc := newK (connect km (serverSettings s)) in
          modS self (set_kernel (Some kc));;
          effect (Connect kc statusChanged self);;
          effect (Connect kc connectionStatusChanged self);;
          effect (Connect kc unhandledMessage self);;
          effect (Connect kc iopubMessage self);;
          effect (Connect kc anyMessage self)
      end
  end.

(** [new SessionConnection(options, id, model)]: the field initialisers,
    then the constructor's body.  [_kernel] has no initialiser; the body
    either assigns it or throws, and then nothing holds the object. *)
Definition constructed (options : IOptions) (id : string)
  : SessionConnection :=
  {| _id := id;
     _path := o_path options;
     _type := or_str (o_type options) "file";
     _name := or_str (o_name options) "";
     _kernel := None;
     _isDisposed := false;
     _updating := false;
     serverSettings := default makeSettings (o_serverSettings options);
     _connectToKernel := o_connectToKernel options |}.

Definition new_SessionConnection (options : IOptions) (id : string)
    (model : option KernelModel) : M SRef :=
  let* self := newS (constructed options id) in
  setupKernel self model;;
  ret self.

(** [get model()]. *)
Definition model (self : SRef) : M IModel :=
  let* s := getS self in
  let* k := this_kernel self in
  let* kc := getK k in
  ret {| m_id := _id s;
         m_kernel := Some {| km_id := kc_id kc; km_name := kc_name kc |};
         m_path := _path s;
         m_type := _type s;
         m_name := _name s |}.

Definition clone (self : SRef) : M SRef :=
  let* s := getS self in
  let* k := this_kernel self in
  let* kc := getK k in
  new_SessionConnection
    {| o_path := _path s;
       o_name := Some (_name s);
       o_type := Some (_type s);
       o_kernelName := None;
       o_kernelId := None;
       o_serverSettings := Some (serverSettings s);
       o_connectToKernel := _connectToKernel s |}
    (_id s)
    (Some {| km_id := kc_id kc; km_name := kc_name kc |}).

Definition _handleModelChange (self : SRef) (oldModel : IModel) : M unit :=
  let* s := getS self in
  (if bool_decide (m_name oldModel <> _name s)
   then effect (EmitPropertyChanged self PName) else ret tt);;
  (if bool_decide (m_type oldModel <> _type s)
   then effect (EmitPropertyChanged self PType) else ret tt);;
  (if bool_decide (m_path oldModel <> _path s)
   then effect (EmitPropertyChanged self PPath) else ret tt).

(** The condition of the [if] in [update]. *)
Definition kernel_differs (self : SRef) (record : IModel) : M bool :=
  let* s := getS self in
  match _kernel s, m_kernel record with
  | None, Some _ => ret true
  | Some _, None => ret true
  | Some k, Some km =>
      let* kc := getK k in
      ret (bool_decide (kc_id kc <> km_id km))
  | None, None => ret false
  end.

Definition update (self : SRef) (record : IModel) : M unit :=
  let* s := getS self in
  if _updating s then ret tt
  else
    let* oldModel := model self in
    modS self (set_path (m_path record));;
    modS self (set_name (m_name record));;
    modS self (set_type (m_type record));;
    let* differs := kernel_differs self record in
    (if differs then
       let* s1 := getS self in
       (match _kernel s1 with
        | Some k => kernel_dispose k
        | None => ret tt
        end);;
       let oldValue := _kernel s1 in
       setupKernel self (m_kernel record);;
       let* s2 := getS self in
       let newValue := _kernel s2 in
       effect (EmitKernelChanged self oldValue newValue)
     else ret tt);;
    _handleModelChange self oldModel.

Definition dispose (self : SRef) : M unit :=
  let* s := getS self in
  if _isDisposed s then ret tt
  else
    modS self (set_isDisposed true);;
    effect (EmitDisposed self);;
    let* k := this_kernel self in
    kernel_dispose k;;
    effect (ClearData self).

(** [_patch], and its two halves around the suspension at the network
    call: up to the request going out, and from the promise settling. *)
Definition _patch (self : SRef) (body : JSON) : M IModel :=
  modS self (set_updating true);;
  finally
    (let* s := getS self in
     updateSession (_id s) body (Some (serverSettings s)))
    (modS self (set_updating false)).

Definition _patch_begin (self : SRef) (body : JSON) : M unit :=
  modS self (set_updating true);;
  let* s := getS self in
  request (updateSession_request (_id s) body (Some (serverSettings s))).

Definition _patch_end (self : SRef) (answer : option Response) : M IModel :=
  finally
    (let* response := settle answer in
     updateSession_response response)
    (modS self (set_updating false)).

Definition throw_if_disposed (self : SRef) : M unit :=
  let* s := getS self in
  if _isDisposed s then throw (Error "Session is disposed") else ret tt.

Definition setPath (self : SRef) (path : string) : M unit :=
  throw_if_disposed self;;
  let data := JObj [("path", JStr path)] in
  _patch self data;;
  ret tt.

Definition setName (self : SRef) (name : string) : M unit :=
  throw_if_disposed self;;
  let data := JObj [("name", JStr name)] in
  _patch self data;;
  ret tt.

Definition setType (self : SRef) (type : string) : M unit :=
  throw_if_disposed self;;
  let data := JObj [("type", JStr type)] in
  _patch self data;;
  ret tt.

Definition changeKernel_body (options : PartialKernelModel) : JSON :=
  JObj [("kernel", JObj (opt_member "id" (pk_id options)
                           ++ opt_member "name" (pk_name options)))].

(** The result is [this.kernel], read once [_patch] is through. *)
Definition changeKernel (self : SRef) (options : PartialKernelModel)
  : M (option KRef) :=
  throw_if_disposed self;;
  let data := changeKernel_body options in
  let* k := this_kernel self in
  kernel_dispose k;;
  _patch self data;;
  let* s := getS self in
  ret (_kernel s).

(** [changeKernel] up to its suspension. *)
Definition changeKernel_begin (self : SRef) (options : PartialKernelModel)
  : M unit :=
  throw_if_disposed self;;
  let data := changeKernel_body options in
  let* k := this_kernel self in
  kernel_dispose k;;
  _patch_begin self data.

Definition changeKernel_end (self : SRef) (answer : option Response)
  : M (option KRef) :=
  _patch_end self answer;;
  let* s := getS self in
  ret (_kernel s).

Definition shutdown (self : SRef) : M unit :=
  throw_if_disposed self;;
  let* s := getS self in
  shutdownSession (_id s) (Some (serverSettings s)).

(** ** namespace Private *)

(** [each] and [find] of the algorithm library, over callbacks that may
    write to the store or throw.  ([each] stops when its callback returns
    [false]; the callbacks here return nothing.) *)
Fixpoint each {A} (l : list A) (fn : A -> M unit) : M unit :=
  match l with
  | [] => ret tt
  | x :: l' => fn x;; each l' fn
  end.

Fixpoint find {A} (l : list A) (fn : A -> M bool) : M (option A) :=
  match l with
  | [] => ret None
  | x :: l' =>
      let* hit := fn x in
      if hit then ret (Some x) else find l' fn
  end.

(** [runningSessions.get(baseUrl) || []].  The module-level map is not
    declared in the source at hand; it is read from the store.  What is
    returned is the array as it is now, a value: going through it is going
    through [running.slice()]. *)
Definition running (base : string) : M (list SRef) :=
  fun w => Ok (default [] (runningSessions w !! base)) w.

(** The options literal of [createSession]: no [connectToKernel]. *)
Definition createSession_options (record : IModel) (settings : ISettings)
  : IOptions :=
  {| o_path := m_path record;
     o_type := Some (m_type record);
     o_name := Some (m_name record);
     o_kernelName := None;
     o_kernelId := None;
     o_serverSettings := Some settings;
     o_connectToKernel := None |}.

Definition createSession (record : IModel) (settings : option ISettings)
  : M SRef :=
  let settings := default makeSettings settings in
  new_SessionConnection (createSession_options record settings)
    (m_id record) (m_kernel record).

Definition connectTo (record : IModel) (settings : option ISettings)
  : M SRef :=
  let settings := default makeSettings settings in
  let* tracked := running (baseUrl settings) in
  let* session :=
    find tracked (fun value =>
      let* v := getS value in ret (bool_decide (_id v = m_id record))) in
  match session with
  | Some session => clone session
  | None => createSession record (Some settings)
  end.

Definition startNew (options : IOptions) : M SRef :=
  match o_path options with
  | None => throw (Error "Must specify a path")
  | Some _ =>
      let* record := startSession options in
      createSession record (o_serverSettings options)
  end.

Definition updateFromServer (record : IModel) (base : string) : M IModel :=
  let* tracked := running base in
  each tracked (fun session =>
    let* s := getS session in
    if bool_decide (_id s = m_id record) then update session record
    else ret tt);;
  ret record.

Definition updateRunningSessions (records : list IModel) (base : string)
  : M (list IModel) :=
  let* tracked := running base in
  each tracked (fun session =>
    let* updated :=
      find records (fun sId =>
        let* s := getS session in
        if bool_decide (_id s = m_id sId) then
          update session sId;;
          ret true
        else ret false) in
    let* s := getS session in
    if negb (bool_decide (is_Some updated)) && negb (_isDisposed s)
    then dispose session
    else ret tt);;
  ret records.

End Program.

(** * What [update] amounts to *)

(** The three assignments at the head of [update]. *)
Definition applied (record : IModel) (s : SessionConnection)
  : SessionConnection :=
  set_type (m_type record) (set_name (m_name record)
    (set_path (m_path record) s)).

(** The emissions of [_handleModelChange] for a connection that was [s]
    before the record was applied. *)
Definition property_changes (self : SRef) (s : SessionConnection)
    (record : IModel) : list Effect :=
  ((if bool_decide (_name s <> m_name record)
    then [EmitPropertyChanged self PName] else [])
   ++ (if bool_decide (_type s <> m_type record)
       then [EmitPropertyChanged self PType] else [])
   ++ (if bool_decide (_path s <> m_path record)
       then [EmitPropertyChanged self PPath] else []))%list.

(** The five subscriptions of [setupKernel]. *)
Definition subscriptions (kc : KRef) (self : SRef) : list Effect :=
  [Connect kc statusChanged self;
   Connect kc connectionStatusChanged self;
   Connect kc unhandledMessage self;
   Connect kc iopubMessage self;
   Connect kc anyMessage self].

Definition is_property_changed (e : Effect) : bool :=
  match e with EmitPropertyChanged _ _ => true | _ => false end.

Definition is_kernel_changed (e : Effect) : bool :=
  match e with EmitKernelChanged _ _ _ => true | _ => false end.

(** The record names no kernel, or one of another id than [kc]. *)
Definition identity_changed (kc : KernelConnection) (record : IModel) : bool :=
  match m_kernel record with
  | Some km => bool_decide (kc_id kc <> km_id km)
  | None => true
  end.

(** [s] has no kernel, or its kernel is [kc] behind [k]. *)
Definition owns (w : World) (s : SessionConnection)
    (owned : option (KRef * KernelConnection)) : Prop :=
  match owned with
  | None => _kernel s = None
  | Some (k, kc) => _kernel s = Some k /\ kernels w !! k = Some kc
  end.

(** The outcome of [update self record] in [w], where [self] names [s]
    and the kernel of [s], if it has one, is [kc] behind [k]. *)
Definition update_outcome (self : SRef) (record : IModel) (w : World)
    (s : SessionConnection) (owned : option (KRef * KernelConnection))
  : Res unit :=
  if _updating s then Ok tt w
  else
    match owned with
    | None => Throw TypeError w
    | Some (k, kc) =>
        let s1 := applied record s in
        match m_kernel record with
        | Some km =>
            if bool_decide (kc_id kc = km_id km) then
              Ok tt {| sessions := <[self := s1]> (sessions w);
                       kernels := kernels w;
                       runningSessions := runningSessions w;
                       trace := trace w ++ property_changes self s record |}
            else
              match _connectToKernel s with
              | None =>
                  Throw TypeError
                    {| sessions := <[self := s1]> (sessions w);
                       kernels := <[k := disposed kc]> (kernels w);
                       runningSessions := runningSessions w;
                       trace := trace w |}
              | Some connect =>
                  let k' := length (kernels w) in
                  Ok tt
                    {| sessions :=
                         <[self := set_kernel (Some k') s1]> (sessions w);
                       kernels :=
                         <[k := disposed kc]> (kernels w)
                           ++ [connect km (serverSettings s)];
                       runningSessions := runningSessions w;
                       trace :=
                         trace w ++ subscriptions k' self
                           ++ [EmitKernelChanged self (Some k) (Some k')]
                           ++ property_changes self s record |}
              end
        | None =>
            Ok tt {| sessions := <[self := set_kernel None s1]> (sessions w);
                     kernels := <[k := disposed kc]> (kernels w);
                     runningSessions := runningSessions w;
                     trace :=
                       trace w ++ [EmitKernelChanged self (Some k) None]
                         ++ property_changes self s record |}
        end
    end.

(** * The store after a patch *)

(** The store [_patch] leaves behind, whatever the server said: the request
    in the trace and the flag cleared; the record, if one came back, is in
    the result and nowhere else. *)
Definition patched (makeSettings : ISettings) (self : SRef)
    (s : SessionConnection) (body : JSON) (w : World) : World :=
  {| sessions := <[self := set_updating false s]> (sessions w);
     kernels := kernels w;
     runningSessions := runningSessions w;
     trace :=
       trace w
         ++ [Fetch (updateSession_request makeSettings (_id s) body
                      (Some (serverSettings s)))] |}.

(** * The registry *)

(** No tracked connection at [base] has the id [id]. *)
Definition untracked (id base : string) (w : World) : Prop :=
  Forall (fun r => exists s, sessions w !! r = Some s /\ _id s <> id)
         (default [] (runningSessions w !! base)).

(** ** Reconciliation, in the words of its description *)

(** The first record of the list that carries the id. *)
Definition matching (id : string) (records : list IModel) : option IModel :=
  List.find (fun r => bool_decide (id = m_id r)) records.

(** One tracked connection against the list: with a matching record,
    update from it; with none, dispose unless already disposed. *)
Definition reconcile (records : list IModel) (session : SRef) : M unit :=
  let* s := getS session in
  match matching (_id s) records with
  | Some record => update session record
  | None => if _isDisposed s then ret tt else dispose session
  end.

(** A computation that leaves the [_isDisposed] flag of every connection
    as it found it, however it ends. *)
Definition keeps_disposal {A} (m : M A) : Prop :=
  forall w,
    _isDisposed <$> sessions (world_of (m w)) = _isDisposed <$> sessions w.

(** * The reads of restapi.ts and the lookups of Private *)

Section Lookups.

Variable makeSettings : ISettings.
Variable validateModel : JSON -> option IModel.
Variable server : list Effect -> Request -> option Response.

(** [findById] calls [getSessionModel] by its bare name, which the module
    does not import (it imports [listRunning] by name and the rest as
    [restapi]).  The function behind the name is taken as given. *)
Variable fetchModel : string -> option ISettings -> M IModel.

(** [promise.catch(handler)]. *)
Definition catch {A} (m : M A) (handler : Exn -> M A) : M A :=
  fun w => match m w with
           | Ok a w' => Ok a w'
           | Throw e w' => handler e w'
           end.

(** The loop [data[i] = validateModel(data[i])]: in order, out at the
    first element that does not validate. *)
Fixpoint validate_each (items : list JSON) : M (list IModel) :=
  match items with
  | [] => ret []
  | d :: rest =>
      let* m := validated validateModel d in
      let* ms := validate_each rest in
      ret (m :: ms)
  end.

Definition listRunning_request (settings : option ISettings) : Request :=
  {| rq_method := GET;
     rq_url := [baseUrl (default makeSettings settings); SESSION_SERVICE_URL];
     rq_body := None |}.

Definition listRunning (settings : option ISettings) : M (list IModel) :=
  let* response := makeRequest server (listRunning_request settings) in
  if negb (rs_status response =? 200) then throw (ResponseError response None)
  else
    let* data := json response in
    match data with
    | JArr items => validate_each items
    | _ => throw (Error "Invalid Session list")
    end.

Definition getSessionModel_request (id : string) (settings : option ISettings)
  : Request :=
  {| rq_method := GET;
     rq_url := getSessionUrl (baseUrl (default makeSettings settings)) id;
     rq_body := None |}.

Definition getSessionModel (id : string) (settings : option ISettings)
  : M IModel :=
  let* response := makeRequest server (getSessionModel_request id settings) in
  if negb (rs_status response =? 200) then throw (ResponseError response None)
  else
    let* data := json response in
    validated validateModel data.

Definition findById (id : string) (settings : option ISettings) : M IModel :=
  let settings := default makeSettings settings in
  let* tracked := running (baseUrl settings) in
  let* session :=
    find tracked (fun value =>
      let* v := getS value in ret (bool_decide (_id v = id))) in
  match session with
  | Some session => model session
  | None =>
      catch (fetchModel id (Some settings))
        (fun _ => throw (Error ("No running session for id: " ++ id)))
  end.

Definition findByPath (path : string) (settings : option ISettings)
  : M IModel :=
  let settings := default makeSettings settings in
  let* tracked := running (baseUrl settings) in
  let* session :=
    find tracked (fun value =>
      let* v := getS value in ret (bool_decide (_path v = Some path))) in
  match session with
  | Some session => model session
  | None =>
      let* models := listRunning (Some settings) in
      match List.find (fun value => bool_decide (m_path value = Some path))
              models with
      | Some m => ret m
      | None => throw (Error ("No running session for path: " ++ path))
      end
  end.

End Lookups.

(** * How the store may change *)

(** A connection keeps its id, its settings and its connector, and once
    disposed stays so. *)
Definition same_connection (s s' : SessionConnection) : Prop :=
  _id s' = _id s
  /\ serverSettings s' = serverSettings s
  /\ _connectToKernel s' = _connectToKernel s
  /\ (_isDisposed s = true -> _isDisposed s' = true).

Definition same_kernel_connection (c c' : KernelConnection) : Prop :=
  kc_id c' = kc_id c /\ kc_name c' = kc_name c
  /\ (kc_isDisposed c = true -> kc_isDisposed c' = true).

(** From [w] to [w']: every object is still there, behind the reference it
    had, and is the same connection; the registry is the same map; the
    trace has only grown. *)
Definition evolves (w w' : World) : Prop :=
  (forall r s, sessions w !! r = Some s ->
     exists s', sessions w' !! r = Some s' /\ same_connection s s')
  /\ (forall k c, kernels w !! k = Some c ->
        exists c', kernels w' !! k = Some c' /\ same_kernel_connection c c')
  /\ runningSessions w' = runningSessions w
  /\ trace w `prefix_of` trace w'.

(** A computation under which the store only evolves, however it ends. *)
Definition steady {A} (m : M A) : Prop :=
  forall w, evolves w (world_of (m w)).

(** The first of the references whose connection passes the test. *)
Fixpoint first_tracked (test : SessionConnection -> bool) (l : list SRef)
    (w : World) : option SRef :=
  match l with
  | [] => None
  | r :: l' =>
      match sessions w !! r with
      | Some s => if test s then Some r else first_tracked test l' w
      | None => None
      end
  end.

(** A computation that writes to no connection outside [P]: any other
    connection is afterwards what it was, however the computation ends. *)
Definition touches_only (P : SRef -> Prop) {A} (m : M A) : Prop :=
  forall w r s,
    ~ P r -> sessions w !! r = Some s ->
    sessions (world_of (m w)) !! r = Some s.

(** * What a request comes to *)

(** What the functions of restapi.ts that expect a record make of the
    server's answer, [ok] being the status they expect: the error thrown,
    or the record returned. *)
Definition reading (validateModel : JSON -> option IModel) (ok : Z)
    (answer : option Response) : Exn + IModel :=
  match answer with
  | None => inl NetworkError
  | Some r =>
      if negb (rs_status r =? ok) then inl (ResponseError r None)
      else
        match rs_json r with
        | None => inl SyntaxError
        | Some d =>
            match validateModel d with
            | None => inl ValidationError
            | Some m => inr m
            end
        end
  end.

(** The same for the list of [listRunning]. *)
Definition reading_list (validateModel : JSON -> option IModel)
    (answer : option Response) : Exn + list IModel :=
  match answer with
  | None => inl NetworkError
  | Some r =>
      if negb (rs_status r =? 200) then inl (ResponseError r None)
      else
        match rs_json r with
        | None => inl SyntaxError
        | Some (JArr items) =>
            match mapM validateModel items with
            | None => inl ValidationError
            | Some ms => inr ms
            end
        | Some _ => inl (Error "Invalid Session list")
        end
  end.

(** An outcome in the store [w]. *)
Definition outcome {A} (r : Exn + A) (w : World) : Res A :=
  match r with
  | inl e => Throw e w
  | inr a => Ok a w
  end.

(** * Concrete servers and stores *)

Module Scenario.

Definition str_member (k : string) (fs : list (string * JSON)) : option string :=
  match assoc k fs with Some (JStr s) => Some s | _ => None end.

(** A validator for the scenarios: an object with string members [id],
    [path], [type] and [name], and a [kernel] that is null or an object
    with [id] and [name]. *)
Definition decodeModel (data : JSON) : option IModel :=
  match data with
  | JObj fs =>
      match str_member "id" fs, str_member "path" fs,
            str_member "type" fs, str_member "name" fs, assoc "kernel" fs with
      | Some i, Some p, Some t, Some n, Some JNull =>
          Some {| m_id := i; m_kernel := None; m_path := Some p;
                  m_type := t; m_name := n |}
      | Some i, Some p, Some t, Some n, Some (JObj ks) =>
          match str_member "id" ks, str_member "name" ks with
          | Some ki, Some kn =>
              Some {| m_id := i;
                      m_kernel := Some {| km_id := ki; km_name := kn |};
                      m_path := Some p; m_type := t; m_name := n |}
          | _, _ => None
          end
      | _, _, _, _, _ => None
      end
  | _ => None
  end.

Definition encodeModel (m : IModel) : JSON :=
  JObj [("id", JStr (m_id m));
        ("path", JStr (default "" (m_path m)));
        ("type", JStr (m_type m));
        ("name", JStr (m_name m));
        ("kernel",
         match m_kernel m with
         | Some k => JObj [("id", JStr (km_id k)); ("name", JStr (km_name k))]
         | None => JNull
         end)].

Definition settings0 : ISettings := {| baseUrl := "http://localhost:8888/" |}.

(** A connector in the manner of [Kernel.connectTo]. *)
Definition connect0 : Connector :=
  fun km _ => {| kc_id := km_id km; kc_name := km_name km;
                 kc_isDisposed := false |}.

(** A server that answers every request the same way. *)
Definition always (r : Response) : list Effect -> Request -> option Response :=
  fun _ _ => Some r.

Definition session0 (k : option KRef) : SessionConnection :=
  {| _id := "s-1"; _path := Some "a.ipynb"; _name := "a"; _type := "notebook";
     _kernel := k; _isDisposed := false; _updating := false;
     serverSettings := settings0; _connectToKernel := Some connect0 |}.

Definition kernel0 : KernelConnection :=
  {| kc_id := "k-1"; kc_name := "python3"; kc_isDisposed := false |}.

Definition world0 : World :=
  {| sessions := [session0 (Some 0%nat)]; kernels := [kernel0];
     runningSessions := {[ "http://localhost:8888/" := [0%nat] ]};
     trace := [] |}.

Definition record1 : IModel :=
  {| m_id := "s-1";
     m_kernel := Some {| km_id := "k-2"; km_name := "ir" |};
     m_path := Some "b.ipynb"; m_type := "notebook"; m_name := "b" |}.

(** The same record without a kernel. *)
Definition record0 : IModel :=
  {| m_id := "s-1"; m_kernel := None;
     m_path := Some "b.ipynb"; m_type := "notebook"; m_name := "b" |}.

(** The server accepts every patch and answers with [record1]. *)
Definition accepting : list Effect -> Request -> option Response :=
  always {| rs_status := 200; rs_json := Some (encodeModel record1) |}.

(** The server creates the session of [record0]. *)
Definition creating : list Effect -> Request -> option Response :=
  always {| rs_status := 201; rs_json := Some (encodeModel record0) |}.

(** A 404 whose body is not JSON, as a proxy in front of the server
    sends it. *)
Definition not_found_page : Response :=
  {| rs_status := 404; rs_json := None |}.

(** A 404 as the session service sends it. *)
Definition not_found : Response :=
  {| rs_status := 404;
     rs_json := Some (JObj [("message", JStr "Session not found: s-1")]) |}.

(** One connection, without a kernel. *)
Definition world_null : World :=
  {| sessions := [session0 None]; kernels := [];
     runningSessions := {[ "http://localhost:8888/" := [0%nat] ]};
     trace := [] |}.

(** The same, with a patch in flight. *)
Definition world_null_busy : World :=
  {| sessions := [set_updating true (session0 None)]; kernels := [];
     runningSessions := {[ "http://localhost:8888/" := [0%nat] ]};
     trace := [] |}.

(** The same, disposed. *)
Definition world_null_disposed : World :=
  {| sessions := [set_isDisposed true (session0 None)]; kernels := [];
     runningSessions := {[ "http://localhost:8888/" := [0%nat] ]};
     trace := [] |}.

(** Two tracked connections: the first without a kernel, the second with
    one. *)
Definition session1 : SessionConnection :=
  {| _id := "s-2"; _path := Some "c.ipynb"; _name := "c"; _type := "notebook";
     _kernel := Some 0%nat; _isDisposed := false; _updating := false;
     serverSettings := settings0; _connectToKernel := Some connect0 |}.

Definition world_pair : World :=
  {| sessions := [session0 None; session1]; kernels := [kernel0];
     runningSessions := {[ "http://localhost:8888/" := [0%nat; 1%nat] ]};
     trace := [] |}.

Definition options_empty_path : IOptions :=
  {| o_path := Some ""; o_type := None; o_name := None;
     o_kernelName := Some "python3"; o_kernelId := None;
     o_serverSettings := Some settings0; o_connectToKernel := None |}.

Definition options_no_path : IOptions :=
  {| o_path := None; o_type := Some "notebook"; o_name := None;
     o_kernelName := Some "python3"; o_kernelId := None;
     o_serverSettings := Some settings0; o_connectToKernel := None |}.

(** A session the store knows nothing of, and the server creating it. *)
Definition record9 : IModel :=
  {| m_id := "s-9";
     m_kernel := Some {| km_id := "k-2"; km_name := "ir" |};
     m_path := Some "b.ipynb"; m_type := "notebook"; m_name := "b" |}.

Definition creating9 : list Effect -> Request -> option Response :=
  always {| rs_status := 201; rs_json := Some (encodeModel record9) |}.

Definition options_nb : IOptions :=
  {| o_path := Some "b.ipynb"; o_type := Some "notebook"; o_name := Some "b";
     o_kernelName := Some "python3"; o_kernelId := None;
     o_serverSettings := Some settings0; o_connectToKernel := None |}.

(** [world0] while [setPath] waits for the server. *)
Definition world_patching : World :=
  world_of (_patch_begin settings0 0%nat (JObj [("path", JStr "b.ipynb")])
              world0).

(** A record that names the kernel [world0]'s connection has. *)
Definition record_same : IModel :=
  {| m_id := "s-1";
     m_kernel := Some {| km_id := "k-1"; km_name := "python3" |};
     m_path := Some "b.ipynb"; m_type := "notebook"; m_name := "b" |}.

(** [world0] with its connection disposed. *)
Definition world_disposed : World :=
  with_sessions [set_isDisposed true (session0 (Some 0%nat))] world0.

(** [world0] and a second connection to the same session that the
    registry does not track. *)
Definition world_untracked : World :=
  with_sessions [session0 (Some 0%nat); session0 (Some 0%nat)] world0.

(** Two tracked connections, each with a kernel. *)
Definition world_two : World :=
  {| sessions := [session0 (Some 0%nat); session1];
     kernels := [kernel0; kernel0];
     runningSessions := {[ "http://localhost:8888/" := [0%nat; 1%nat] ]};
     trace := [] |}.

(** A session nobody tracks, without a kernel. *)
Definition record_new : IModel :=
  {| m_id := "s-9"; m_kernel := None;
     m_path := Some "n.ipynb"; m_type := "notebook"; m_name := "n" |}.

(** The server answers every request with a 500. *)
Definition failing : list Effect -> Request -> option Response :=
  always {| rs_status := 500; rs_json := None |}.

(** The server lists the sessions of [record1] and [record_new]. *)
Definition listing : list Effect -> Request -> option Response :=
  always {| rs_status := 200;
            rs_json := Some (JArr [encodeModel record1;
                                   encodeModel record_new]) |}.

End Scenario.

(** * Properties *)

(** ** Running a computation by hand *)

Lemma bind_Ok {A B} (m : M A) (k : A -> M B) w a w' :
  m w = Ok a w' -> bind m k w = k a w'.
Proof. intros H. unfold bind. now rewrite H. Qed.

Lemma bind_Throw {A B} (m : M A) (k : A -> M B) w e w' :
  m w = Throw e w' -> bind m k w = Throw e w'.
Proof. intros H. unfold bind. now rewrite H. Qed.

Lemma bind_assoc {A B C} (m : M A) (k : A -> M B) (h : B -> M C) w :
  bind (bind m k) h w = bind m (fun a => bind (k a) h) w.
Proof. unfold bind. now destruct (m w). Qed.

Lemma ret_then {A B} (a : A) (k : A -> M B) w : bind (ret a) k w = k a w.
Proof. reflexivity. Qed.

Lemma getS_Ok self w s :
  sessions w !! self = Some s -> getS self w = Ok s w.
Proof. intros H. unfold getS. now rewrite H. Qed.

Lemma modS_Ok self f w s :
  sessions w !! self = Some s ->
  modS self f w = Ok tt (with_sessions (<[self := f s]> (sessions w)) w).
Proof. intros H. unfold modS. now rewrite H. Qed.

Lemma getK_Ok k w c :
  kernels w !! k = Some c -> getK k w = Ok c w.
Proof. intros H. unfold getK. now rewrite H. Qed.

Lemma this_kernel_null self w s :
  sessions w !! self = Some s -> _kernel s = None ->
  this_kernel self w = Throw TypeError w.
Proof.
  intros Hs Hk. unfold this_kernel.
  rewrite (bind_Ok _ _ _ _ _ (getS_Ok _ _ _ Hs)). now rewrite Hk.
Qed.

Lemma this_kernel_Ok self w s k :
  sessions w !! self = Some s -> _kernel s = Some k ->
  this_kernel self w = Ok k w.
Proof.
  intros Hs Hk. unfold this_kernel.
  rewrite (bind_Ok _ _ _ _ _ (getS_Ok _ _ _ Hs)). now rewrite Hk.
Qed.

(** The object behind [self] after it has been written to. *)
Lemma lookup_written self (w : World) (s x : SessionConnection) :
  sessions w !! self = Some s ->
  sessions (with_sessions (<[self := x]> (sessions w)) w) !! self = Some x.
Proof.
  intros H. simpl. apply list_lookup_insert_eq.
  now apply lookup_lt_Some in H.
Qed.

(** ** The guard of [update] *)

Lemma update_guarded self record w s :
  sessions w !! self = Some s -> _updating s = true ->
  update self record w = Ok tt w.
Proof.
  intros Hs Hu. unfold update.
  rewrite (bind_Ok _ _ _ _ _ (getS_Ok _ _ _ Hs)).
  now rewrite Hu.
Qed.

(** C3.  While the [_updating] flag of a connection is set, [update] returns
    at once: the store and the trace are the ones it was called in, so
    path, type, name and kernel are as before and no signal is emitted. *)
Theorem update_while_updating_is_noop
    (self : SRef) (record : IModel) (w : World) (s : SessionConnection) :
  sessions w !! self = Some s ->
  _updating s = true ->
  update self record w = Ok tt w.
Proof. apply update_guarded. Qed.

(** ** Connections without a kernel *)

Lemma model_null_kernel self w s :
  sessions w !! self = Some s -> _kernel s = None ->
  model self w = Throw TypeError w.
Proof.
  intros Hs Hk. unfold model.
  rewrite (bind_Ok _ _ _ _ _ (getS_Ok _ _ _ Hs)).
  now rewrite (bind_Throw _ _ _ _ _ (this_kernel_null _ _ _ Hs Hk)).
Qed.

Lemma dispose_null_kernel self w s :
  sessions w !! self = Some s -> _kernel s = None -> _isDisposed s = false ->
  dispose self w =
    Throw TypeError
      (with_trace (trace w ++ [EmitDisposed self])
         (with_sessions (<[self := set_isDisposed true s]> (sessions w)) w)).
Proof.
  intros Hs Hk Hd. unfold dispose.
  rewrite (bind_Ok _ _ _ _ _ (getS_Ok _ _ _ Hs)), Hd.
  rewrite (bind_Ok _ _ _ _ _ (modS_Ok _ _ _ _ Hs)).
  unfold effect at 1. unfold bind at 1.
  apply bind_Throw.
  eapply this_kernel_null; [ eapply lookup_written; eassumption | exact Hk ].
Qed.

Section NullKernel.

Variable makeSettings : ISettings.

(** C9, as the code has it.  On a connection whose kernel is null the
    [model] accessor and [clone] throw a [TypeError] and touch nothing.
    [update] does so only past its guard, when [_updating] is clear; with
    the flag set it returns without reading the model.  [dispose] does so
    only on a connection not yet disposed, and by then it has set
    [_isDisposed] and emitted [disposed]; the signal data is not cleared.
    On a disposed connection it returns at once. *)
Theorem null_kernel_operations
    (self : SRef) (w : World) (s : SessionConnection) :
  sessions w !! self = Some s ->
  _kernel s = None ->
  model self w = Throw TypeError w
  /\ clone makeSettings self w = Throw TypeError w
  /\ (forall record,
        update self record w =
          if _updating s then Ok tt w else Throw TypeError w)
  /\ dispose self w =
       if _isDisposed s then Ok tt w
       else Throw TypeError
              (with_trace (trace w ++ [EmitDisposed self])
                 (with_sessions
                    (<[self := set_isDisposed true s]> (sessions w)) w)).
Proof.
  intros Hs Hk. repeat split.
  - eapply model_null_kernel; eassumption.
  - unfold clone.
    rewrite (bind_Ok _ _ _ _ _ (getS_Ok _ _ _ Hs)).
    now rewrite (bind_Throw _ _ _ _ _ (this_kernel_null _ _ _ Hs Hk)).
  - intros record. destruct (_updating s) eqn:Hu.
    + eapply update_guarded; eassumption.
    + unfold update.
      rewrite (bind_Ok _ _ _ _ _ (getS_Ok _ _ _ Hs)), Hu.
      apply bind_Throw. eapply model_null_kernel; eassumption.
  - destruct (_isDisposed s) eqn:Hd.
    + unfold dispose.
      rewrite (bind_Ok _ _ _ _ _ (getS_Ok _ _ _ Hs)). now rewrite Hd.
    + eapply dispose_null_kernel; eassumption.
Qed.

End NullKernel.

(** ** Applying a record *)

Lemma model_Ok self w s k kc :
  sessions w !! self = Some s -> _kernel s = Some k ->
  kernels w !! k = Some kc ->
  model self w =
    Ok {| m_id := _id s;
          m_kernel := Some {| km_id := kc_id kc; km_name := kc_name kc |};
          m_path := _path s; m_type := _type s; m_name := _name s |} w.
Proof.
  intros Hs Hk Hkc. unfold model.
  rewrite (bind_Ok _ _ _ _ _ (getS_Ok _ _ _ Hs)).
  rewrite (bind_Ok _ _ _ _ _ (this_kernel_Ok _ _ _ _ Hs Hk)).
  now rewrite (bind_Ok _ _ _ _ _ (getK_Ok _ _ _ Hkc)).
Qed.

(** A write to the object behind [self], followed by whatever comes next. *)
Lemma modS_then {B} self f (m : M B) w s :
  sessions w !! self = Some s ->
  (modS self f;; m) w
  = m (with_sessions (<[self := f s]> (sessions w)) w).
Proof. intros Hs. now rewrite (bind_Ok _ _ _ _ _ (modS_Ok _ f _ _ Hs)). Qed.

Lemma getS_then {B} self (k : SessionConnection -> M B) w s :
  sessions w !! self = Some s ->
  (let* x := getS self in k x) w = k s w.
Proof. intros Hs. now rewrite (bind_Ok _ _ _ _ _ (getS_Ok _ _ _ Hs)). Qed.

Lemma effect_then {B} e (m : M B) w :
  (effect e;; m) w = m (with_trace (trace w ++ [e]) w).
Proof. reflexivity. Qed.

Lemma _handleModelChange_spec self w s old :
  sessions w !! self = Some s ->
  _handleModelChange self old w =
    Ok tt (with_trace
             (trace w
                ++ (if bool_decide (m_name old <> _name s)
                    then [EmitPropertyChanged self PName] else [])
                ++ (if bool_decide (m_type old <> _type s)
                    then [EmitPropertyChanged self PType] else [])
                ++ (if bool_decide (m_path old <> _path s)
                    then [EmitPropertyChanged self PPath] else [])) w).
Proof.
  intros Hs. unfold _handleModelChange. rewrite (getS_then _ _ _ _ Hs).
  destruct w as [ss ks rs t]. unfold bind, effect, ret, with_trace; cbn.
  repeat case_bool_decide; cbn; rewrite <- ?app_assoc, ?app_nil_r; reflexivity.
Qed.

Lemma kernel_dispose_then {B} k (m : M B) w kc :
  kernels w !! k = Some kc ->
  (kernel_dispose k;; m) w
  = m (with_kernels (<[k := disposed kc]> (kernels w)) w).
Proof.
  intros Hk. unfold kernel_dispose, modK, bind. now rewrite Hk.
Qed.

Lemma setupKernel_null self w s :
  sessions w !! self = Some s ->
  setupKernel self None w
  = Ok tt (with_sessions (<[self := set_kernel None s]> (sessions w)) w).
Proof. intros Hs. now apply modS_Ok. Qed.

Lemma setupKernel_no_connector self w s km :
  sessions w !! self = Some s -> _connectToKernel s = None ->
  setupKernel self (Some km) w = Throw TypeError w.
Proof.
  intros Hs Hc. unfold setupKernel.
  rewrite (getS_then _ _ _ _ Hs). now rewrite Hc.
Qed.

Lemma setupKernel_connect self w s km connect :
  sessions w !! self = Some s -> _connectToKernel s = Some connect ->
  setupKernel self (Some km) w =
    Ok tt {| sessions :=
               <[self := set_kernel (Some (length (kernels w))) s]> (sessions w);
             kernels := kernels w ++ [connect km (serverSettings s)];
             runningSessions := runningSessions w;
             trace := trace w ++ subscriptions (length (kernels w)) self |}.
Proof.
  intros Hs Hc. unfold setupKernel.
  rewrite (getS_then _ _ _ _ Hs), Hc.
  unfold newK. unfold bind at 1.
  erewrite modS_then by exact Hs.
  unfold bind, effect, with_trace, with_sessions, with_kernels, subscriptions.
  cbn. rewrite <- !app_assoc. reflexivity.
Qed.

Lemma kernel_differs_spec self record w s k kc :
  sessions w !! self = Some s -> _kernel s = Some k ->
  kernels w !! k = Some kc ->
  kernel_differs self record w =
    Ok (match m_kernel record with
        | Some km => bool_decide (kc_id kc <> km_id km)
        | None => true
        end) w.
Proof.
  intros Hs Hk Hkc. unfold kernel_differs.
  rewrite (getS_then _ _ _ _ Hs), Hk.
  destruct (m_kernel record) as [km|]; [|reflexivity].
  now rewrite (bind_Ok _ _ _ _ _ (getK_Ok _ _ _ Hkc)).
Qed.

Lemma update_spec self record w s owned :
  sessions w !! self = Some s ->
  owns w s owned ->
  update self record w = update_outcome self record w s owned.
Proof.
  intros Hs Ho. unfold update_outcome.
  destruct (_updating s) eqn:Hu; [now apply (update_guarded _ _ _ s)|].
  destruct owned as [[k kc]|]; cbn in Ho.
  2:{ unfold update. rewrite (getS_then _ _ _ _ Hs), Hu.
      apply bind_Throw. now apply (model_null_kernel _ _ s). }
  destruct Ho as [Hk Hkc].
  assert (Hlt : (self < length (sessions w))%nat)
    by now apply lookup_lt_Some in Hs.
  unfold update. rewrite (getS_then _ _ _ _ Hs), Hu.
  rewrite (bind_Ok _ _ _ _ _ (model_Ok _ _ _ _ _ Hs Hk Hkc)).
  rewrite (modS_then _ _ _ _ _ Hs).
  erewrite modS_then by (apply (lookup_written _ _ _ _ Hs)).
  cbn [with_sessions sessions kernels runningSessions trace].
  rewrite list_insert_insert_eq.
  erewrite modS_then
    by (cbn [sessions]; apply list_lookup_insert_eq; exact Hlt).
  cbn [with_sessions sessions kernels runningSessions trace].
  rewrite list_insert_insert_eq. fold (applied record s).
  set (w1 := {| sessions := <[self := applied record s]> (sessions w);
                kernels := kernels w;
                runningSessions := runningSessions w;
                trace := trace w |}).
  assert (Hs1 : sessions w1 !! self = Some (applied record s))
    by (cbn [sessions w1]; apply list_lookup_insert_eq; exact Hlt).
  assert (Hk1 : _kernel (applied record s) = Some k) by exact Hk.
  assert (Hkc1 : kernels w1 !! k = Some kc) by exact Hkc.
  rewrite (bind_Ok _ _ _ _ _
             (kernel_differs_spec _ record _ _ _ _ Hs1 Hk1 Hkc1)).
  set (w2 := with_kernels (<[k := disposed kc]> (kernels w1)) w1).
  assert (Hs2 : sessions w2 !! self = Some (applied record s)) by exact Hs1.
  destruct (m_kernel record) as [km|].
  - destruct (decide (kc_id kc = km_id km)) as [Heq|Hne].
    + rewrite (bool_decide_eq_false_2 _ (fun H => H Heq)).
      rewrite (bool_decide_eq_true_2 _ Heq).
      unfold bind at 1. unfold ret at 1.
      rewrite (_handleModelChange_spec _ _ _ _ Hs1). reflexivity.
    + rewrite (bool_decide_eq_true_2 _ Hne).
      rewrite (bool_decide_eq_false_2 _ Hne).
      destruct (_connectToKernel s) as [connect|] eqn:Hc.
      * erewrite bind_Ok.
        2:{ rewrite (getS_then _ _ _ _ Hs1), Hk1.
            rewrite (kernel_dispose_then _ _ _ _ Hkc1). fold w2.
            erewrite bind_Ok
              by (apply (setupKernel_connect _ _ _ _ connect Hs2); exact Hc).
            erewrite getS_then
              by (cbn; apply list_lookup_insert_eq; now rewrite length_insert).
            reflexivity. }
        erewrite _handleModelChange_spec
          by (cbn; apply list_lookup_insert_eq; now rewrite length_insert).
        subst w2 w1. unfold property_changes, effect, with_trace, with_kernels.
        cbn. rewrite list_insert_insert_eq, length_insert.
        rewrite <- !app_assoc. reflexivity.
      * erewrite bind_Throw; [reflexivity|].
        rewrite (getS_then _ _ _ _ Hs1), Hk1.
        rewrite (kernel_dispose_then _ _ _ _ Hkc1). fold w2.
        apply bind_Throw.
        now apply (setupKernel_no_connector _ _ (applied record s)).
  - erewrite bind_Ok.
    2:{ rewrite (getS_then _ _ _ _ Hs1), Hk1.
        rewrite (kernel_dispose_then _ _ _ _ Hkc1). fold w2.
        rewrite (bind_Ok _ _ _ _ _ (setupKernel_null _ _ _ Hs2)).
        erewrite getS_then
          by (cbn; apply list_lookup_insert_eq; now rewrite length_insert).
        reflexivity. }
    erewrite _handleModelChange_spec
      by (cbn; apply list_lookup_insert_eq; now rewrite length_insert).
    subst w2 w1. unfold property_changes, effect, with_trace, with_kernels.
    cbn. rewrite list_insert_insert_eq.
    rewrite <- !app_assoc. reflexivity.
Qed.

(** A call of [update] that gets past the guard and returns was made on a
    connection with a kernel, and ends as [update_outcome] says. *)
Lemma update_returning self record w s w' :
  sessions w !! self = Some s -> _updating s = false ->
  update self record w = Ok tt w' ->
  exists k kc,
    _kernel s = Some k /\ kernels w !! k = Some kc
    /\ update_outcome self record w s (Some (k, kc)) = Ok tt w'.
Proof.
  intros Hs Hu Hr. destruct (_kernel s) as [k|] eqn:Hk.
  - destruct (kernels w !! k) as [kc|] eqn:Hkc.
    + exists k, kc. split; [reflexivity|]. split; [exact Hkc|].
      now rewrite <- (update_spec _ _ _ _ (Some (k, kc)) Hs (conj Hk Hkc)).
    + exfalso. unfold update in Hr.
      rewrite (getS_then _ _ _ _ Hs), Hu in Hr.
      erewrite bind_Throw in Hr; [discriminate|].
      unfold model. rewrite (getS_then _ _ _ _ Hs).
      rewrite (bind_Ok _ _ _ _ _ (this_kernel_Ok _ _ _ _ Hs Hk)).
      unfold getK, bind. now rewrite Hkc.
  - exfalso. rewrite (update_spec _ _ _ _ None Hs Hk) in Hr.
    unfold update_outcome in Hr. rewrite Hu in Hr. discriminate.
Qed.

Lemma filter_property_changes self s record :
  List.filter is_property_changed (property_changes self s record)
  = property_changes self s record
  /\ List.filter is_kernel_changed (property_changes self s record) = [].
Proof.
  unfold property_changes. repeat case_bool_decide; split; reflexivity.
Qed.

(** What an applied [update] that returns has done: the three fields are
    the record's; the property signals it emitted are one for each of name,
    type and path that differs from before, in that order; it emitted one
    kernel signal, with the old and the new handle, when the record's
    kernel is another one, and otherwise none, the kernel staying as it
    was. *)
Lemma update_applied self record w s w' :
  sessions w !! self = Some s -> _updating s = false ->
  update self record w = Ok tt w' ->
  exists k kc s' fresh,
    _kernel s = Some k /\ kernels w !! k = Some kc
    /\ sessions w' !! self = Some s'
    /\ _path s' = m_path record /\ _name s' = m_name record
    /\ _type s' = m_type record
    /\ trace w' = (trace w ++ fresh)%list
    /\ List.filter is_property_changed fresh = property_changes self s record
    /\ List.filter is_kernel_changed fresh
       = (if identity_changed kc record
          then [EmitKernelChanged self (Some k) (_kernel s')] else [])
    /\ (identity_changed kc record = false ->
        _kernel s' = Some k /\ kernels w' = kernels w).
Proof.
  intros Hs Hu Hr.
  destruct (update_returning _ _ _ _ _ Hs Hu Hr) as (k & kc & Hk & Hkc & Ho).
  assert (Hlt : (self < length (sessions w))%nat)
    by now apply lookup_lt_Some in Hs.
  destruct (filter_property_changes self s record) as [Hpp Hpk].
  exists k, kc. unfold update_outcome in Ho. rewrite Hu in Ho.
  unfold identity_changed.
  destruct (m_kernel record) as [km|].
  - destruct (decide (kc_id kc = km_id km)) as [Heq|Hne].
    + rewrite (bool_decide_eq_true_2 _ Heq) in Ho.
      rewrite (bool_decide_eq_false_2 _ (fun H => H Heq)).
      injection Ho as <-. cbn.
      exists (applied record s), (property_changes self s record).
      rewrite list_lookup_insert_eq by exact Hlt.
      do 7 (split; [first [exact Hk|exact Hkc|reflexivity]|]).
      split; [exact Hpp|]. split; [exact Hpk|].
      intros _. split; [exact Hk|reflexivity].
    + rewrite (bool_decide_eq_false_2 _ Hne) in Ho.
      rewrite (bool_decide_eq_true_2 _ Hne).
      destruct (_connectToKernel s) as [connect|]; [|discriminate].
      injection Ho as <-. cbn.
      exists (set_kernel (Some (length (kernels w))) (applied record s)).
      eexists. rewrite list_lookup_insert_eq by exact Hlt.
      do 7 (split; [first [exact Hk|exact Hkc|reflexivity]|]).
      split; [cbn; now rewrite Hpp|]. split; [cbn; now rewrite Hpk|].
      discriminate.
  - injection Ho as <-. cbn.
    exists (set_kernel None (applied record s)). eexists.
    rewrite list_lookup_insert_eq by exact Hlt.
    do 7 (split; [first [exact Hk|exact Hkc|reflexivity]|]).
    split; [cbn; now rewrite Hpp|]. split; [cbn; now rewrite Hpk|].
    discriminate.
Qed.

(** ** What [update] never touches *)

Create HintDb keeps discriminated.

Lemma keeps_ret {A} (a : A) : keeps_disposal (ret a).
Proof. intros w. reflexivity. Qed.

Lemma keeps_throw {A} e : keeps_disposal (@throw A e).
Proof. intros w. reflexivity. Qed.

Lemma keeps_bind {A B} (m : M A) (k : A -> M B) :
  keeps_disposal m -> (forall a, keeps_disposal (k a)) ->
  keeps_disposal (bind m k).
Proof.
  intros Hm Hk w. unfold bind. specialize (Hm w).
  destruct (m w) as [a w'|e w']; cbn in Hm.
  - now rewrite Hk.
  - exact Hm.
Qed.

Lemma keeps_getS self : keeps_disposal (getS self).
Proof. intros w. unfold getS. now destruct (sessions w !! self). Qed.

Lemma keeps_getK k : keeps_disposal (getK k).
Proof. intros w. unfold getK. now destruct (kernels w !! k). Qed.

Lemma keeps_effect e : keeps_disposal (effect e).
Proof. intros w. reflexivity. Qed.

Lemma keeps_newK c : keeps_disposal (newK c).
Proof. intros w. reflexivity. Qed.

Lemma keeps_modK k f : keeps_disposal (modK k f).
Proof. intros w. unfold modK. now destruct (kernels w !! k). Qed.

Lemma keeps_modS self f :
  (forall s, _isDisposed (f s) = _isDisposed s) ->
  keeps_disposal (modS self f).
Proof.
  intros Hf w. unfold modS. destruct (sessions w !! self) as [s|] eqn:Hs.
  - cbn. rewrite list_fmap_insert, Hf. apply list_insert_id.
    now rewrite list_lookup_fmap, Hs.
  - reflexivity.
Qed.

#[local] Hint Resolve keeps_ret keeps_throw keeps_getS keeps_getK keeps_effect
  keeps_newK keeps_modK : keeps.

Ltac keeps_step :=
  first
    [ apply keeps_bind; [|intros ?]
    | apply keeps_modS; intros ?; reflexivity
    | solve [auto with keeps]
    | match goal with
      | |- keeps_disposal (match ?x with _ => _ end) => destruct x
      end ].

Lemma keeps_setupKernel self model : keeps_disposal (setupKernel self model).
Proof. unfold setupKernel. repeat keeps_step. Qed.

Lemma keeps_model self : keeps_disposal (model self).
Proof. unfold model, this_kernel. repeat keeps_step. Qed.

Lemma keeps_update self record : keeps_disposal (update self record).
Proof.
  unfold update, kernel_differs, kernel_dispose, _handleModelChange.
  repeat first
    [ apply keeps_setupKernel | apply keeps_model | keeps_step ].
Qed.

Lemma update_keeps_reference self record w a w' session s :
  update self record w = Ok a w' ->
  sessions w !! session = Some s ->
  exists s', sessions w' !! session = Some s'
             /\ _isDisposed s' = _isDisposed s.
Proof.
  intros Hu Hs. pose proof (keeps_update self record w) as Hk.
  rewrite Hu in Hk. cbn in Hk.
  assert (Hm : (_isDisposed <$> sessions w') !! session
               = Some (_isDisposed s))
    by (rewrite Hk, list_lookup_fmap, Hs; reflexivity).
  rewrite list_lookup_fmap in Hm.
  destruct (sessions w' !! session) as [s'|]; [|discriminate].
  exists s'. split; [reflexivity|]. now inversion Hm.
Qed.

(** ** Reconciliation *)

Lemma each_ext {A} (l : list A) (f g : A -> M unit) w :
  (forall x w0, f x w0 = g x w0) -> each l f w = each l g w.
Proof.
  intros Hfg. revert w. induction l as [|x l IH]; intros w; [reflexivity|].
  cbn. unfold bind. rewrite Hfg. destruct (g x w); [apply IH|reflexivity].
Qed.

(** [find] with the callback of [updateRunningSessions]: the records before
    the first match cost nothing, the first match is applied, and the
    search ends there. *)
Lemma find_applies_first_match session records w s :
  sessions w !! session = Some s ->
  find records (fun sId =>
    let* s := getS session in
    if bool_decide (_id s = m_id sId) then update session sId;; ret true
    else ret false) w
  = match matching (_id s) records with
    | Some record => (update session record;; ret (Some record)) w
    | None => Ok None w
    end.
Proof.
  intros Hs. induction records as [|r records IH]; [reflexivity|].
  cbn [find matching List.find]. unfold bind at 1.
  rewrite (getS_then _ _ _ _ Hs).
  destruct (bool_decide (_id s = m_id r)).
  - unfold bind. destruct (update session r w); reflexivity.
  - unfold ret at 1. exact IH.
Qed.

Lemma reconcile_step records session w :
  (let* updated :=
     find records (fun sId =>
       let* s := getS session in
       if bool_decide (_id s = m_id sId) then update session sId;; ret true
       else ret false) in
   let* s := getS session in
   if negb (bool_decide (is_Some updated)) && negb (_isDisposed s)
   then dispose session
   else ret tt) w
  = reconcile records session w.
Proof.
  unfold reconcile. destruct (sessions w !! session) as [s|] eqn:Hs.
  - rewrite (getS_then _ _ _ _ Hs).
    unfold bind at 1. rewrite (find_applies_first_match _ _ _ _ Hs).
    destruct (matching (_id s) records) as [record|].
    + unfold bind at 1. destruct (update session record w) as [[] w'|e w'] eqn:Hu;
        [|reflexivity].
      unfold ret at 1.
      destruct (update_keeps_reference _ _ _ _ _ _ _ Hu Hs) as (s' & Hs' & _).
      rewrite (getS_then _ _ _ _ Hs').
      rewrite bool_decide_eq_true_2 by (now exists record). reflexivity.
    + rewrite (getS_then _ _ _ _ Hs).
      rewrite bool_decide_eq_false_2 by (intros [? ?]; discriminate).
      now destruct (_isDisposed s).
  - destruct records as [|r records]; cbn [find];
      unfold bind, ret, getS; now rewrite Hs.
Qed.

Lemma matching_Some id records record :
  matching id records = Some record ->
  record ∈ records /\ m_id record = id.
Proof.
  intros H. apply List.find_some in H as [Hin Hid].
  apply bool_decide_eq_true_1 in Hid.
  split; [now apply list_elem_of_In|easy].
Qed.

Lemma matching_None id records :
  matching id records = None ->
  forall record, record ∈ records -> m_id record <> id.
Proof.
  intros H record Hin Hid. apply list_elem_of_In in Hin.
  apply (List.find_none _ _ H) in Hin.
  apply bool_decide_eq_false_1 in Hin. now apply Hin.
Qed.

(** The loop of [updateRunningSessions] is the reconciliation as it is
    described.  It takes the connections tracked at the endpoint as they
    are on entry, and goes through that list in order, reconciling each:
    with a record of the same id in the list (the first one), [update] from
    it, and the connection's [_isDisposed] is what it was; with none,
    [dispose] unless already disposed.  An exception out of [update] or
    [dispose] leaves the loop, and the connections after it are not
    reached. *)
Lemma updateRunningSessions_reconciles
    (records : list IModel) (base : string) (w : World) :
  let snapshot := default [] (runningSessions w !! base) in
  updateRunningSessions records base w
  = (each snapshot (reconcile records);; ret records) w
  /\ (forall session s w0,
        sessions w0 !! session = Some s ->
        match matching (_id s) records with
        | Some record =>
            (record ∈ records /\ m_id record = _id s)
            /\ reconcile records session w0 = update session record w0
            /\ _isDisposed <$> sessions (world_of (update session record w0))
               = _isDisposed <$> sessions w0
        | None =>
            (forall record, record ∈ records -> m_id record <> _id s)
            /\ reconcile records session w0
               = if _isDisposed s then Ok tt w0 else dispose session w0
        end).
Proof.
  intros snapshot. split.
  - unfold updateRunningSessions, running. unfold bind at 1. fold snapshot.
    unfold bind at 1. unfold bind at 2.
    now rewrite (each_ext _ _ (reconcile records) _
                   (reconcile_step records)).
  - intros session s w0 Hs. unfold reconcile.
    rewrite (getS_then _ _ _ _ Hs).
    destruct (matching (_id s) records) as [record|] eqn:Hm.
    + split; [now apply matching_Some|]. split; [reflexivity|].
      apply keeps_update.
    + split; [now apply matching_None|]. now destruct (_isDisposed s).
Qed.

(** ** The patch protocol *)

Section Patch.

Variable makeSettings : ISettings.
Variable validateModel : JSON -> option IModel.
Variable server : list Effect -> Request -> option Response.

(** However [updateSession] ends, the request has gone out and nothing
    else has happened. *)
Lemma updateSession_world id body settings w :
  world_of (updateSession makeSettings validateModel server id body settings w)
  = with_trace
      (trace w ++ [Fetch (updateSession_request makeSettings id body settings)])
      w.
Proof.
  unfold updateSession, makeRequest, request, effect, settle, bind.
  destruct (server _ _) as [r|]; [|reflexivity]. cbn.
  unfold updateSession_response.
  destruct (negb (rs_status r =? 200)); [reflexivity|].
  unfold json, validated, bind, ret, throw.
  destruct (rs_json r) as [d|]; [|reflexivity].
  now destruct (validateModel d).
Qed.

Lemma updateSession_Ok id body settings w r d record :
  server (trace w) (updateSession_request makeSettings id body settings)
    = Some r ->
  rs_status r = 200 -> rs_json r = Some d -> validateModel d = Some record ->
  updateSession makeSettings validateModel server id body settings w
  = Ok record
      (with_trace
         (trace w
            ++ [Fetch (updateSession_request makeSettings id body settings)])
         w).
Proof.
  intros Hr Hst Hj Hv.
  unfold updateSession, makeRequest, request, effect, settle, bind.
  rewrite Hr. cbn. unfold updateSession_response. rewrite Hst. cbn.
  unfold json, validated, bind, ret. now rewrite Hj, Hv.
Qed.

Lemma _patch_world self body w s :
  sessions w !! self = Some s ->
  world_of (_patch makeSettings validateModel server self body w)
  = patched makeSettings self s body w.
Proof.
  intros Hs. unfold _patch. rewrite (modS_then _ _ _ _ _ Hs).
  set (w1 := with_sessions _ w).
  assert (Hs1 : sessions w1 !! self = Some (set_updating true s))
    by now apply (lookup_written _ _ s).
  unfold finally. rewrite (getS_then _ _ _ _ Hs1).
  pose proof (updateSession_world (_id (set_updating true s)) body
                (Some (serverSettings (set_updating true s))) w1) as Hw.
  assert (Hlt : (self < length (sessions w))%nat)
    by now apply lookup_lt_Some in Hs.
  destruct (updateSession _ _ _ _ _ _ w1) as [record w2|e w2];
    cbn [world_of] in Hw; subst w2;
    (erewrite modS_Ok by exact Hs1);
    cbn; unfold patched; cbn; now rewrite list_insert_insert_eq.
Qed.

Lemma _patch_Ok self body w s r d record :
  sessions w !! self = Some s ->
  server (trace w)
    (updateSession_request makeSettings (_id s) body (Some (serverSettings s)))
    = Some r ->
  rs_status r = 200 -> rs_json r = Some d -> validateModel d = Some record ->
  _patch makeSettings validateModel server self body w
  = Ok record (patched makeSettings self s body w).
Proof.
  intros Hs Hr Hst Hj Hv.
  pose proof (_patch_world self body w s Hs) as Hw.
  unfold _patch in *. rewrite (modS_then _ _ _ _ _ Hs) in *.
  set (w1 := with_sessions _ w) in *.
  assert (Hs1 : sessions w1 !! self = Some (set_updating true s))
    by now apply (lookup_written _ _ s).
  unfold finally in *. rewrite (getS_then _ _ _ _ Hs1) in *.
  erewrite updateSession_Ok in * by eassumption.
  erewrite modS_Ok in * by exact Hs1. cbn [world_of] in Hw.
  now rewrite Hw.
Qed.

(** The two halves of [_patch] make the whole, the server's answer being
    the one to the request as it went out. *)
Lemma _patch_in_two_halves self body w s :
  sessions w !! self = Some s ->
  _patch makeSettings validateModel server self body w
  = (_patch_begin makeSettings self body;;
     _patch_end validateModel self
       (server (trace w)
          (updateSession_request makeSettings (_id s) body
             (Some (serverSettings s))))) w.
Proof.
  intros Hs. unfold _patch, _patch_begin.
  rewrite (modS_then _ _ _ _ _ Hs).
  unfold bind at 2. rewrite (modS_then _ _ _ _ _ Hs).
  set (w1 := with_sessions _ w).
  assert (Hs1 : sessions w1 !! self = Some (set_updating true s))
    by now apply (lookup_written _ _ s).
  unfold finally, _patch_end, finally.
  rewrite !(getS_then _ _ _ _ Hs1).
  unfold updateSession, makeRequest, request, effect, bind. cbn.
  reflexivity.
Qed.

Lemma changeKernel_in_two_halves self options w s :
  sessions w !! self = Some s ->
  changeKernel makeSettings validateModel server self options w
  = (changeKernel_begin makeSettings self options;;
     changeKernel_end validateModel self
       (server (trace w)
          (updateSession_request makeSettings (_id s)
             (changeKernel_body options) (Some (serverSettings s))))) w.
Proof.
  intros Hs. unfold changeKernel, changeKernel_begin, changeKernel_end.
  rewrite !bind_assoc. unfold throw_if_disposed.
  rewrite !bind_assoc, !(getS_then _ _ _ _ Hs).
  destruct (_isDisposed s); [reflexivity|].
  rewrite !ret_then, !bind_assoc.
  destruct (_kernel s) as [k|] eqn:Hk.
  2:{ now rewrite !(bind_Throw _ _ _ _ _ (this_kernel_null _ _ _ Hs Hk)). }
  rewrite !(bind_Ok _ _ _ _ _ (this_kernel_Ok _ _ _ _ Hs Hk)).
  rewrite !bind_assoc.
  destruct (kernels w !! k) as [kc|] eqn:Hkc.
  2:{ unfold kernel_dispose, modK, bind. now rewrite Hkc. }
  rewrite !(kernel_dispose_then _ _ _ _ Hkc).
  set (w1 := with_kernels _ w).
  assert (Hs1 : sessions w1 !! self = Some s) by exact Hs.
  change (trace w) with (trace w1).
  unfold bind at 1. rewrite (_patch_in_two_halves self _ w1 s Hs1).
  apply (bind_assoc (_patch_begin _ _ _)).
Qed.

(** What the four setters come to when the server accepts the patch: the
    connection is as it was, its flag cleared; the record is dropped. *)
Lemma setPath_Ok self path w s r d record :
  sessions w !! self = Some s -> _isDisposed s = false ->
  server (trace w)
    (updateSession_request makeSettings (_id s)
       (JObj [("path", JStr path)]) (Some (serverSettings s))) = Some r ->
  rs_status r = 200 -> rs_json r = Some d -> validateModel d = Some record ->
  setPath makeSettings validateModel server self path w
  = Ok tt (patched makeSettings self s (JObj [("path", JStr path)]) w).
Proof.
  intros Hs Hd Hr Hst Hj Hv. unfold setPath, throw_if_disposed.
  unfold bind at 1. rewrite (getS_then _ _ _ _ Hs), Hd. unfold ret at 1.
  now rewrite (bind_Ok _ _ _ _ _ (_patch_Ok _ _ _ _ _ _ _ Hs Hr Hst Hj Hv)).
Qed.

Lemma changeKernel_Ok self options w s k kc r d record :
  sessions w !! self = Some s -> _isDisposed s = false ->
  _kernel s = Some k -> kernels w !! k = Some kc ->
  server (trace w)
    (updateSession_request makeSettings (_id s)
       (changeKernel_body options) (Some (serverSettings s))) = Some r ->
  rs_status r = 200 -> rs_json r = Some d -> validateModel d = Some record ->
  changeKernel makeSettings validateModel server self options w
  = Ok (Some k)
      (with_kernels (<[k := disposed kc]> (kernels w))
         (patched makeSettings self s (changeKernel_body options) w)).
Proof.
  intros Hs Hd Hk Hkc Hr Hst Hj Hv. unfold changeKernel, throw_if_disposed.
  unfold bind at 1. rewrite (getS_then _ _ _ _ Hs), Hd. unfold ret at 1.
  rewrite (bind_Ok _ _ _ _ _ (this_kernel_Ok _ _ _ _ Hs Hk)).
  rewrite (kernel_dispose_then _ _ _ _ Hkc).
  set (w1 := with_kernels _ w).
  assert (Hs1 : sessions w1 !! self = Some s) by exact Hs.
  erewrite bind_Ok
    by (eapply (_patch_Ok _ _ w1 s); [exact Hs1|exact Hr|eassumption..]).
  erewrite getS_then
    by (cbn; apply list_lookup_insert_eq; now apply lookup_lt_Some in Hs).
  cbn. now rewrite Hk.
Qed.

End Patch.

(** ** Construction *)

Section Construction.

Variable makeSettings : ISettings.
Variable validateModel : JSON -> option IModel.
Variable server : list Effect -> Request -> option Response.

Lemma set_kernel_None_constructed options id :
  set_kernel None (constructed makeSettings options id)
  = constructed makeSettings options id.
Proof. reflexivity. Qed.

Lemma insert_last {A} (l : list A) (x y : A) :
  <[length l := y]> (l ++ [x])%list = (l ++ [y])%list.
Proof.
  replace (length l) with (length l + 0)%nat by lia.
  now rewrite insert_app_r.
Qed.

Lemma lookup_last {A} (l : list A) (x : A) :
  (l ++ [x])%list !! length l = Some x.
Proof.
  rewrite lookup_app_r by lia.
  now replace (length l - length l)%nat with 0%nat by lia.
Qed.

(** Constructing without a kernel record. *)
Lemma new_SessionConnection_null options id w :
  new_SessionConnection makeSettings options id None w =
    Ok (length (sessions w))
       (with_sessions (sessions w ++ [constructed makeSettings options id]) w).
Proof.
  unfold new_SessionConnection, newS, setupKernel.
  unfold bind, modS, ret. cbn [sessions with_sessions].
  rewrite lookup_last, insert_last. reflexivity.
Qed.

(** Constructing with a kernel record and no connector: the call of
    [this._connectToKernel] is a call of [undefined]. *)
Lemma new_SessionConnection_no_connector options id km w :
  o_connectToKernel options = None ->
  new_SessionConnection makeSettings options id (Some km) w =
    Throw TypeError
      (with_sessions (sessions w ++ [constructed makeSettings options id]) w).
Proof.
  intros Hc.
  unfold new_SessionConnection, newS, setupKernel.
  unfold bind, getS, throw. cbn [sessions with_sessions].
  rewrite lookup_last. cbn. now rewrite Hc.
Qed.

Lemma createSession_spec record settings w :
  createSession makeSettings record settings w =
    let s := constructed makeSettings
               (createSession_options record (default makeSettings settings))
               (m_id record) in
    match m_kernel record with
    | Some _ => Throw TypeError (with_sessions (sessions w ++ [s]) w)
    | None => Ok (length (sessions w)) (with_sessions (sessions w ++ [s]) w)
    end.
Proof.
  unfold createSession. destruct (m_kernel record) as [km|].
  - now apply new_SessionConnection_no_connector.
  - apply new_SessionConnection_null.
Qed.

Lemma find_by_id_miss id (l : list SRef) w :
  Forall (fun r => exists s, sessions w !! r = Some s /\ _id s <> id) l ->
  find l (fun value =>
            let* v := getS value in ret (bool_decide (_id v = id))) w
  = Ok None w.
Proof.
  induction 1 as [|r l (s & Hs & Hne) _ IH]; [reflexivity|].
  simpl. unfold bind at 1.
  rewrite (bind_Ok _ _ _ _ _ (getS_Ok _ _ _ Hs)). unfold ret at 1.
  now rewrite bool_decide_eq_false_2.
Qed.

Lemma connectTo_miss record settings w :
  untracked (m_id record) (baseUrl (default makeSettings settings)) w ->
  connectTo makeSettings record settings w =
    createSession makeSettings record (Some (default makeSettings settings)) w.
Proof.
  intros H. unfold connectTo, running. unfold bind at 1.
  now rewrite (bind_Ok _ _ _ _ _ (find_by_id_miss _ _ _ H)).
Qed.

Lemma makeRequest_Ok rq w r :
  server (trace w) rq = Some r ->
  makeRequest server rq w = Ok r (with_trace (trace w ++ [Fetch rq]) w).
Proof. intros H. unfold makeRequest, request, effect, bind, settle. now rewrite H. Qed.

Lemma makeRequest_Throw rq w :
  server (trace w) rq = None ->
  makeRequest server rq w
  = Throw NetworkError (with_trace (trace w ++ [Fetch rq]) w).
Proof. intros H. unfold makeRequest, request, effect, bind, settle. now rewrite H. Qed.

Lemma startSession_created options w r d record :
  server (trace w) (startSession_request makeSettings options) = Some r ->
  rs_status r = 201 -> rs_json r = Some d -> validateModel d = Some record ->
  startSession makeSettings validateModel server options w =
    Ok record
       (with_trace
          (trace w ++ [Fetch (startSession_request makeSettings options)]) w).
Proof.
  intros Hr Hst Hj Hv. unfold startSession.
  rewrite (bind_Ok _ _ _ _ _ (makeRequest_Ok _ _ _ Hr)), Hst. simpl.
  unfold json, validated, bind, ret. now rewrite Hj, Hv.
Qed.

Lemma startNew_created options w p r d record :
  o_path options = Some p ->
  server (trace w) (startSession_request makeSettings options) = Some r ->
  rs_status r = 201 -> rs_json r = Some d -> validateModel d = Some record ->
  startNew makeSettings validateModel server options w =
    createSession makeSettings record (o_serverSettings options)
      (with_trace
         (trace w ++ [Fetch (startSession_request makeSettings options)]) w).
Proof.
  intros Hp Hr Hst Hj Hv. unfold startNew. rewrite Hp.
  now rewrite (bind_Ok _ _ _ _ _ (startSession_created _ _ _ _ _ Hr Hst Hj Hv)).
Qed.

Lemma createSession_trace record settings w :
  trace (world_of (createSession makeSettings record settings w)) = trace w.
Proof. rewrite createSession_spec. now destruct (m_kernel record). Qed.

(** However [startSession] ends, the request has gone out and nothing else
    has happened. *)
Lemma startSession_world options w :
  world_of (startSession makeSettings validateModel server options w) =
    with_trace
      (trace w ++ [Fetch (startSession_request makeSettings options)]) w.
Proof.
  unfold startSession.
  destruct (server (trace w) (startSession_request makeSettings options))
    as [r|] eqn:Hr.
  - rewrite (bind_Ok _ _ _ _ _ (makeRequest_Ok _ _ _ Hr)).
    destruct (negb (rs_status r =? 201)); [reflexivity|].
    unfold json, validated, bind, ret, throw.
    destruct (rs_json r) as [d|]; [|reflexivity].
    now destruct (validateModel d).
  - now rewrite (bind_Throw _ _ _ _ _ (makeRequest_Throw _ _ Hr)).
Qed.

(** C10.  [createSession] builds its options without a connector, so the
    connection it constructs has none.  With a kernel in the record the
    constructor's [setupKernel] calls [undefined] and construction throws a
    [TypeError]; with a null kernel it returns the new connection, whose
    kernel is null.  [connectTo] on a miss and [startNew] after a created
    response are calls of [createSession] and end the same way. *)
Theorem registry_creation_lacks_connector
    (record : IModel) (settings : option ISettings) (options : IOptions)
    (w : World) :
  let s := constructed makeSettings
             (createSession_options record (default makeSettings settings))
             (m_id record) in
  let outcome (w0 : World) : Res SRef :=
    match m_kernel record with
    | Some _ => Throw TypeError w0
    | None => Ok (length (sessions w)) w0
    end in
  (_connectToKernel s = None /\ _kernel s = None)
  /\ createSession makeSettings record settings w
     = outcome (with_sessions (sessions w ++ [s]) w)
  /\ (untracked (m_id record) (baseUrl (default makeSettings settings)) w ->
      connectTo makeSettings record settings w
      = outcome (with_sessions (sessions w ++ [s]) w))
  /\ (forall p r d,
        o_path options = Some p ->
        server (trace w) (startSession_request makeSettings options) = Some r ->
        rs_status r = 201 -> rs_json r = Some d ->
        validateModel d = Some record ->
        o_serverSettings options = settings ->
        startNew makeSettings validateModel server options w
        = outcome
            (with_trace
               (trace w ++ [Fetch (startSession_request makeSettings options)])
               (with_sessions (sessions w ++ [s]) w))).
Proof.
  intros s outcome. split; [split; reflexivity|]. split; [|split].
  - apply createSession_spec.
  - intros H. rewrite connectTo_miss by exact H.
    rewrite createSession_spec. reflexivity.
  - intros p r d Hp Hr Hst Hj Hv <-.
    rewrite (startNew_created _ _ _ _ _ _ Hp Hr Hst Hj Hv).
    rewrite createSession_spec. subst s outcome. cbn.
    now destruct (m_kernel record).
Qed.

(** C7, as the code has it.  [startNew] rejects with "Must specify a path",
    and nothing has been sent, exactly when [options.path] is undefined.
    With a path, the empty string included, the create request goes out,
    and it is the only thing the call does to its collaborators; on a
    created response holding a valid record the outcome is the one of
    [createSession] on that record. *)
Theorem startNew_checks_path_is_defined (options : IOptions) (w : World) :
  match o_path options with
  | None =>
      startNew makeSettings validateModel server options w
      = Throw (Error "Must specify a path") w
  | Some _ =>
      trace (world_of (startNew makeSettings validateModel server options w))
      = (trace w ++ [Fetch (startSession_request makeSettings options)])%list
      /\ forall r d record,
           server (trace w) (startSession_request makeSettings options)
             = Some r ->
           rs_status r = 201 -> rs_json r = Some d ->
           validateModel d = Some record ->
           startNew makeSettings validateModel server options w
           = createSession makeSettings record (o_serverSettings options)
               (with_trace
                  (trace w
                     ++ [Fetch (startSession_request makeSettings options)])
                  w)
  end.
Proof.
  destruct (o_path options) as [p|] eqn:Hp.
  - split.
    + unfold startNew. rewrite Hp. unfold bind.
      pose proof (startSession_world options w) as Hw.
      destruct (startSession makeSettings validateModel server options w)
        as [record w1|e w1]; cbn in Hw; subst w1.
      * now rewrite createSession_trace.
      * reflexivity.
    + intros r d record Hr Hst Hj Hv.
      now apply (startNew_created _ _ p r d).
  - unfold startNew. now rewrite Hp.
Qed.

(** ** Shutting a session down *)

(** C8, as the code has it.  Once the server has answered the delete
    request: on 204 [shutdownSession] returns; on 404 it reads the body,
    and when that decodes to a value other than null it warns, with the
    body's [message] if that is truthy and with its own text otherwise, and
    returns (a body that is not JSON, or is null, makes the call fail); on
    410 it throws the response error with the kernel message; on any other
    status it throws the plain response error. *)
Theorem shutdownSession_by_status
    (id : string) (settings : option ISettings) (w : World) (r : Response) :
  server (trace w) (shutdownSession_request makeSettings id settings)
    = Some r ->
  let w1 :=
    with_trace
      (trace w ++ [Fetch (shutdownSession_request makeSettings id settings)])
      w in
  shutdownSession makeSettings server id settings w =
    if rs_status r =? 204 then Ok tt w1
    else if rs_status r =? 404 then
      match rs_json r with
      | None => Throw SyntaxError w1
      | Some JNull => Throw TypeError w1
      | Some data =>
          Ok tt
            (with_trace
               (trace w1 ++
                  [Warn (or_json
                           (match data with
                            | JObj fs => assoc "message" fs
                            | _ => None
                            end)
                           (JStr ("The session " ++ dquote ++ id ++ dquote
                                    ++ dquote
                                    ++ " does not exist on the server")))])
               w1)
      end
    else if rs_status r =? 410 then
      Throw (ResponseError r
               (Some "The kernel was deleted but the session was not")) w1
    else Throw (ResponseError r None) w1.
Proof.
  intros Hr w1. unfold shutdownSession.
  rewrite (bind_Ok _ _ _ _ _ (makeRequest_Ok _ _ _ Hr)). fold w1.
  destruct (rs_status r =? 204) eqn:H204.
  - apply Z.eqb_eq in H204. rewrite H204. reflexivity.
  - destruct (rs_status r =? 404) eqn:H404.
    + unfold json, bind. destruct (rs_json r) as [data|]; [|reflexivity].
      destruct data; reflexivity.
    + destruct (rs_status r =? 410); reflexivity.
Qed.

End Construction.

(** * The program on concrete stores *)

Import Scenario.

(** ** What the setters do with the server's answer *)

(** C1.  One connection, path [a.ipynb], name [a]; the server accepts every
    patch and answers with a record of path [b.ipynb] and name [b].  Each
    setter returns normally, and the store it leaves is the one it found
    with the request added to the trace: the record never reaches
    [update], and path, name and type are the old ones. *)
Theorem setters_drop_the_patch_record :
  decodeModel (encodeModel record1) = Some record1
  /\ setPath settings0 decodeModel accepting 0%nat "b.ipynb" world0
     = Ok tt (with_trace
                [Fetch (updateSession_request settings0 "s-1"
                          (JObj [("path", JStr "b.ipynb")]) (Some settings0))]
                world0)
  /\ setName settings0 decodeModel accepting 0%nat "b" world0
     = Ok tt (with_trace
                [Fetch (updateSession_request settings0 "s-1"
                          (JObj [("name", JStr "b")]) (Some settings0))]
                world0)
  /\ setType settings0 decodeModel accepting 0%nat "notebook" world0
     = Ok tt (with_trace
                [Fetch (updateSession_request settings0 "s-1"
                          (JObj [("type", JStr "notebook")]) (Some settings0))]
                world0)
  /\ _path <$> sessions world0 !! 0%nat = Some (Some "a.ipynb")
  /\ m_path record1 = Some "b.ipynb".
Proof. repeat split; vm_compute; reflexivity. Qed.

(** C2.  The same connection, owning the kernel connection [k-1]; the
    server accepts the patch and answers with a record whose kernel is
    [k-2].  By the time the request is out the owned connection is
    disposed.  When the call returns, its result is that same disposed
    connection: no connection to [k-2] has been made. *)
Theorem changeKernel_returns_the_disposed_kernel :
  let options := {| pk_id := None; pk_name := Some "ir" |} in
  let sent :=
    Fetch (updateSession_request settings0 "s-1" (changeKernel_body options)
             (Some settings0)) in
  kernels (world_of (changeKernel_begin settings0 0%nat options world0))
    = [disposed kernel0]
  /\ trace (world_of (changeKernel_begin settings0 0%nat options world0))
     = [sent]
  /\ changeKernel settings0 decodeModel accepting 0%nat options world0
     = Ok (Some 0%nat)
         (with_kernels [disposed kernel0] (with_trace [sent] world0))
  /\ m_kernel record1 = Some {| km_id := "k-2"; km_name := "ir" |}.
Proof. repeat split; vm_compute; reflexivity. Qed.

(** ** Records applied to a connection without a kernel *)

(** C5.  A connection without a kernel, no patch in flight, and a record
    with another path and another name.  [update] throws a [TypeError] on
    reading the model: nothing is overwritten and nothing is emitted. *)
Theorem update_without_kernel_overwrites_nothing :
  _updating <$> sessions world_null !! 0%nat = Some false
  /\ _path <$> sessions world_null !! 0%nat = Some (Some "a.ipynb")
  /\ m_path record0 = Some "b.ipynb"
  /\ update 0%nat record0 world_null = Throw TypeError world_null.
Proof. repeat split; vm_compute; reflexivity. Qed.

(** C6.  From no kernel to a kernel: a connection without a kernel, with
    a connector, no patch in flight, and a record that names the kernel
    [k-2].  [update] throws on reading the model, before its test of the
    kernel is reached: no kernel-changed signal is emitted and the
    connection is still without a kernel. *)
Theorem update_from_null_kernel_emits_nothing :
  _kernel <$> sessions world_null !! 0%nat = Some None
  /\ m_kernel record1 = Some {| km_id := "k-2"; km_name := "ir" |}
  /\ update 0%nat record1 world_null = Throw TypeError world_null
  /\ trace world_null = [].
Proof. repeat split; vm_compute; reflexivity. Qed.

(** ** Reconciling past a connection without a kernel *)

(** An exception leaves the loop, as it leaves any loop.  On a store
    filled in by hand (nothing in the module writes to the registry) with
    two tracked connections, the first without a kernel, and an empty
    list: [dispose] on the first sets its flag, emits [disposed] and
    throws on the null kernel, and the second connection is not
    reached. *)
Lemma reconciliation_stops_at_a_null_kernel :
  default [] (runningSessions world_pair !! "http://localhost:8888/")
    = [0%nat; 1%nat]
  /\ _isDisposed <$> sessions world_pair = [false; false]
  /\ updateRunningSessions [] "http://localhost:8888/" world_pair
     = Throw TypeError
         (with_trace [EmitDisposed 0%nat]
            (with_sessions [set_isDisposed true (session0 None); session1]
               world_pair))
  /\ _isDisposed session1 = false.
Proof. repeat split; vm_compute; reflexivity. Qed.

(** ** Inputs on which a description fails *)

(** Against C7 as stated.  With the empty string for a path [startNew]
    does not reject: the create request goes out and the new connection is
    returned. *)
Lemma startNew_empty_path_counterexample :
  o_path options_empty_path = Some ""
  /\ startNew settings0 decodeModel creating options_empty_path world0
     = Ok 1%nat
         (with_trace
            [Fetch (startSession_request settings0 options_empty_path)]
            (with_sessions
               [session0 (Some 0%nat);
                constructed settings0
                  (createSession_options record0 settings0) "s-1"]
               world0)).
Proof. split; vm_compute; reflexivity. Qed.

(** Against C8 as stated.  A 404 whose body is not JSON:
    [response.json()] rejects, and so does [shutdownSession]; nothing is
    warned.  A 404 whose body is [null]: reading [data.message] throws. *)
Lemma shutdownSession_404_counterexample :
  rs_status not_found_page = 404
  /\ shutdownSession settings0 (always not_found_page) "s-1" None world0
     = Throw SyntaxError
         (with_trace [Fetch (shutdownSession_request settings0 "s-1" None)]
            world0)
  /\ shutdownSession settings0
       (always {| rs_status := 404; rs_json := Some JNull |}) "s-1" None world0
     = Throw TypeError
         (with_trace [Fetch (shutdownSession_request settings0 "s-1" None)]
            world0).
Proof. repeat split; vm_compute; reflexivity. Qed.

(** Against C9 as stated.  A connection without a kernel on which [update]
    and [dispose] do not fail: [update] while a patch is in flight,
    [dispose] once disposed. *)
Lemma null_kernel_counterexample :
  _kernel <$> sessions world_null_busy !! 0%nat = Some None
  /\ update 0%nat record1 world_null_busy = Ok tt world_null_busy
  /\ _kernel <$> sessions world_null_disposed !! 0%nat = Some None
  /\ dispose 0%nat world_null_disposed = Ok tt world_null_disposed.
Proof. repeat split; vm_compute; reflexivity. Qed.

(** ** Instances *)

Lemma update_while_updating_is_noop_witness :
  sessions world_patching !! 0%nat
    = Some (set_updating true (session0 (Some 0%nat)))
  /\ update 0%nat record1 world_patching = Ok tt world_patching.
Proof.
  split; [reflexivity|].
  apply (update_while_updating_is_noop 0%nat record1 world_patching
           (set_updating true (session0 (Some 0%nat))));
    reflexivity.
Defined.

Lemma null_kernel_operations_witness :
  model 0%nat world_null = Throw TypeError world_null
  /\ clone settings0 0%nat world_null = Throw TypeError world_null
  /\ (forall record, update 0%nat record world_null = Throw TypeError world_null)
  /\ dispose 0%nat world_null
     = Throw TypeError
         (with_trace [EmitDisposed 0%nat]
            (with_sessions [set_isDisposed true (session0 None)] world_null)).
Proof.
  exact (null_kernel_operations settings0 0%nat world_null (session0 None)
           eq_refl eq_refl).
Defined.

Lemma updateRunningSessions_reconciles_example :
  updateRunningSessions [record1] "http://localhost:8888/" world0
  = (each [0%nat] (reconcile [record1]);; ret [record1]) world0
  /\ reconcile [record1] 0%nat world0 = update 0%nat record1 world0
  /\ reconcile [] 0%nat world0 = dispose 0%nat world0.
Proof.
  destruct (updateRunningSessions_reconciles [record1]
              "http://localhost:8888/" world0) as [Hloop Hone].
  split; [exact Hloop|]. split.
  - exact (proj1 (proj2 (Hone 0%nat (session0 (Some 0%nat)) world0 eq_refl))).
  - exact (proj2 (proj2 (updateRunningSessions_reconciles []
                           "http://localhost:8888/" world0)
                    0%nat (session0 (Some 0%nat)) world0 eq_refl)).
Defined.

Lemma registry_creation_lacks_connector_witness :
  let s := constructed settings0 (createSession_options record9 settings0)
             "s-9" in
  createSession settings0 record9 (Some settings0) world0
  = Throw TypeError (with_sessions [session0 (Some 0%nat); s] world0)
  /\ connectTo settings0 record9 (Some settings0) world0
     = Throw TypeError (with_sessions [session0 (Some 0%nat); s] world0)
  /\ startNew settings0 decodeModel creating9 options_nb world0
     = Throw TypeError
         (with_trace [Fetch (startSession_request settings0 options_nb)]
            (with_sessions [session0 (Some 0%nat); s] world0)).
Proof.
  destruct (registry_creation_lacks_connector settings0 decodeModel creating9
              record9 (Some settings0) options_nb world0)
    as (_ & Hcreate & Hmiss & Hnew).
  split; [exact Hcreate|]. split.
  - apply Hmiss. repeat constructor.
    exists (session0 (Some 0%nat)). split; [reflexivity|discriminate].
  - apply (Hnew "b.ipynb"
             {| rs_status := 201; rs_json := Some (encodeModel record9) |}
             (encodeModel record9)); reflexivity.
Defined.

Lemma startNew_checks_path_is_defined_witness :
  startNew settings0 decodeModel creating options_no_path world0
  = Throw (Error "Must specify a path") world0
  /\ trace (world_of (startNew settings0 decodeModel creating options_nb
                        world0))
     = [Fetch (startSession_request settings0 options_nb)]
  /\ startNew settings0 decodeModel creating options_nb world0
     = createSession settings0 record0 (Some settings0)
         (with_trace [Fetch (startSession_request settings0 options_nb)]
            world0).
Proof.
  split.
  - exact (startNew_checks_path_is_defined settings0 decodeModel creating
             options_no_path world0).
  - destruct (startNew_checks_path_is_defined settings0 decodeModel creating
                options_nb world0) as [Htrace Hcreated].
    split; [exact Htrace|].
    apply (Hcreated
             {| rs_status := 201; rs_json := Some (encodeModel record0) |}
             (encodeModel record0) record0); reflexivity.
Defined.

Lemma shutdownSession_by_status_witness :
  shutdownSession settings0 (always not_found) "s-1" None world0
  = Ok tt
      (with_trace
         [Fetch (shutdownSession_request settings0 "s-1" None);
          Warn (JStr "Session not found: s-1")]
         world0)
  /\ shutdownSession settings0
       (always {| rs_status := 204; rs_json := None |}) "s-1" None world0
     = Ok tt
         (with_trace [Fetch (shutdownSession_request settings0 "s-1" None)]
            world0)
  /\ shutdownSession settings0
       (always {| rs_status := 410; rs_json := None |}) "s-1" None world0
     = Throw
         (ResponseError {| rs_status := 410; rs_json := None |}
            (Some "The kernel was deleted but the session was not"))
         (with_trace [Fetch (shutdownSession_request settings0 "s-1" None)]
            world0)
  /\ shutdownSession settings0
       (always {| rs_status := 500; rs_json := None |}) "s-1" None world0
     = Throw (ResponseError {| rs_status := 500; rs_json := None |} None)
         (with_trace [Fetch (shutdownSession_request settings0 "s-1" None)]
            world0).
Proof.
  split; [|split; [|split]].
  - exact (shutdownSession_by_status settings0 (always not_found) "s-1" None
             world0 not_found eq_refl).
  - exact (shutdownSession_by_status settings0 _ "s-1" None world0
             {| rs_status := 204; rs_json := None |} eq_refl).
  - exact (shutdownSession_by_status settings0 _ "s-1" None world0
             {| rs_status := 410; rs_json := None |} eq_refl).
  - exact (shutdownSession_by_status settings0 _ "s-1" None world0
             {| rs_status := 500; rs_json := None |} eq_refl).
Defined.

(** * Further properties *)

(** ** How the store evolves *)

Lemma same_connection_refl s : same_connection s s.
Proof. now repeat split. Qed.

Lemma same_connection_trans s1 s2 s3 :
  same_connection s1 s2 -> same_connection s2 s3 -> same_connection s1 s3.
Proof.
  intros (Hi & Hs & Hc & Hd) (Hi' & Hs' & Hc' & Hd').
  repeat split; [congruence..|auto].
Qed.

Lemma same_kernel_connection_refl c : same_kernel_connection c c.
Proof. now repeat split. Qed.

Lemma same_kernel_connection_trans c1 c2 c3 :
  same_kernel_connection c1 c2 -> same_kernel_connection c2 c3 ->
  same_kernel_connection c1 c3.
Proof.
  intros (Hi & Hn & Hd) (Hi' & Hn' & Hd').
  repeat split; [congruence..|auto].
Qed.

Lemma evolves_refl w : evolves w w.
Proof.
  split; [|split; [|split]].
  - intros r s Hs. exists s. split; [exact Hs|apply same_connection_refl].
  - intros k c Hc. exists c.
    split; [exact Hc|apply same_kernel_connection_refl].
  - reflexivity.
  - reflexivity.
Qed.

Lemma evolves_trans w1 w2 w3 :
  evolves w1 w2 -> evolves w2 w3 -> evolves w1 w3.
Proof.
  intros (Hs & Hk & Hr & Ht) (Hs' & Hk' & Hr' & Ht').
  split; [|split; [|split]].
  - intros r s H. destruct (Hs r s H) as (s2 & H2 & Hc2).
    destruct (Hs' r s2 H2) as (s3 & H3 & Hc3). exists s3.
    split; [exact H3|]. eapply same_connection_trans; eassumption.
  - intros k c H. destruct (Hk k c H) as (c2 & H2 & Hc2).
    destruct (Hk' k c2 H2) as (c3 & H3 & Hc3). exists c3.
    split; [exact H3|]. eapply same_kernel_connection_trans; eassumption.
  - congruence.
  - etrans; eassumption.
Qed.

Lemma steady_ret {A} (a : A) : steady (ret a).
Proof. intros w. apply evolves_refl. Qed.

Lemma steady_throw {A} e : steady (@throw A e).
Proof. intros w. apply evolves_refl. Qed.

Lemma steady_bind {A B} (m : M A) (k : A -> M B) :
  steady m -> (forall a, steady (k a)) -> steady (bind m k).
Proof.
  intros Hm Hk w. unfold bind. specialize (Hm w).
  destruct (m w) as [a w'|e w']; cbn in Hm; [|exact Hm].
  eapply evolves_trans; [exact Hm|apply Hk].
Qed.

Lemma steady_finally {A} (m : M A) (c : M unit) :
  steady m -> steady c -> steady (finally m c).
Proof.
  intros Hm Hc w. unfold finally. specialize (Hm w).
  destruct (m w) as [a w'|e w']; cbn in Hm; specialize (Hc w');
    destruct (c w'); cbn in Hc; eapply evolves_trans; eassumption.
Qed.

Lemma steady_catch {A} (m : M A) (h : Exn -> M A) :
  steady m -> (forall e, steady (h e)) -> steady (catch m h).
Proof.
  intros Hm Hh w. unfold catch. specialize (Hm w).
  destruct (m w) as [a w'|e w']; cbn in Hm; [exact Hm|].
  eapply evolves_trans; [exact Hm|apply Hh].
Qed.

Lemma steady_getS self : steady (getS self).
Proof.
  intros w. unfold getS. destruct (sessions w !! self); apply evolves_refl.
Qed.

Lemma steady_getK k : steady (getK k).
Proof.
  intros w. unfold getK. destruct (kernels w !! k); apply evolves_refl.
Qed.

Lemma steady_effect e : steady (effect e).
Proof.
  intros w. destruct (evolves_refl w) as (Hs & Hk & Hr & _).
  split; [exact Hs|]. split; [exact Hk|]. split; [reflexivity|].
  cbn. now apply prefix_app_r.
Qed.

Lemma steady_running base : steady (running base).
Proof. intros w. apply evolves_refl. Qed.

Lemma steady_modS self f :
  (forall s, same_connection s (f s)) -> steady (modS self f).
Proof.
  intros Hf w. unfold modS.
  destruct (sessions w !! self) as [s0|] eqn:H0; [|apply evolves_refl].
  destruct (evolves_refl w) as (_ & Hk & Hr & Ht).
  split; [|split; [exact Hk|split; [reflexivity|exact Ht]]].
  cbn. intros r s Hs.
  destruct (decide (self = r)) as [->|Hne].
  - exists (f s0). rewrite list_lookup_insert_eq
      by (now apply lookup_lt_Some in H0).
    split; [reflexivity|]. replace s with s0 by congruence. apply Hf.
  - exists s. rewrite list_lookup_insert_ne by exact Hne.
    split; [exact Hs|apply same_connection_refl].
Qed.

Lemma steady_modK k f :
  (forall c, same_kernel_connection c (f c)) -> steady (modK k f).
Proof.
  intros Hf w. unfold modK.
  destruct (kernels w !! k) as [c0|] eqn:H0; [|apply evolves_refl].
  destruct (evolves_refl w) as (Hs & _ & Hr & Ht).
  split; [exact Hs|split; [|split; [reflexivity|exact Ht]]].
  cbn. intros k' c Hc.
  destruct (decide (k = k')) as [->|Hne].
  - exists (f c0). rewrite list_lookup_insert_eq
      by (now apply lookup_lt_Some in H0).
    split; [reflexivity|]. replace c with c0 by congruence. apply Hf.
  - exists c. rewrite list_lookup_insert_ne by exact Hne.
    split; [exact Hc|apply same_kernel_connection_refl].
Qed.

Lemma steady_newS s : steady (newS s).
Proof.
  intros w. destruct (evolves_refl w) as (_ & Hk & Hr & Ht).
  split; [|split; [exact Hk|split; [reflexivity|exact Ht]]].
  cbn. intros r s0 Hs. exists s0.
  rewrite lookup_app_l by (now apply lookup_lt_Some in Hs).
  split; [exact Hs|apply same_connection_refl].
Qed.

Lemma steady_newK c : steady (newK c).
Proof.
  intros w. destruct (evolves_refl w) as (Hs & _ & Hr & Ht).
  split; [exact Hs|split; [|split; [reflexivity|exact Ht]]].
  cbn. intros k c0 Hc. exists c0.
  rewrite lookup_app_l by (now apply lookup_lt_Some in Hc).
  split; [exact Hc|apply same_kernel_connection_refl].
Qed.

Lemma steady_each {A} (l : list A) (f : A -> M unit) :
  (forall x, steady (f x)) -> steady (each l f).
Proof.
  intros Hf. induction l as [|x l IH]; [apply steady_ret|].
  cbn. apply steady_bind; [apply Hf|intros _; exact IH].
Qed.

Lemma steady_find {A} (l : list A) (f : A -> M bool) :
  (forall x, steady (f x)) -> steady (find l f).
Proof.
  intros Hf. induction l as [|x l IH]; [apply steady_ret|].
  cbn. apply steady_bind; [apply Hf|].
  intros []; [apply steady_ret|exact IH].
Qed.

Lemma steady_makeRequest server rq : steady (makeRequest server rq).
Proof.
  intros w. unfold makeRequest.
  apply (steady_bind (request rq) (fun _ => settle (server (trace w) rq))).
  - apply steady_effect.
  - intros _. unfold settle.
    destruct (server (trace w) rq); [apply steady_ret|apply steady_throw].
Qed.

Lemma steady_validated validateModel d : steady (validated validateModel d).
Proof.
  unfold validated.
  destruct (validateModel d); [apply steady_ret|apply steady_throw].
Qed.

Lemma steady_json r : steady (json r).
Proof.
  unfold json. destruct (rs_json r); [apply steady_ret|apply steady_throw].
Qed.

Lemma steady_validate_each validateModel items :
  steady (validate_each validateModel items).
Proof.
  induction items as [|d items IH]; [apply steady_ret|].
  cbn. apply steady_bind; [apply steady_validated|intros m].
  apply steady_bind; [exact IH|intros ms; apply steady_ret].
Qed.

Create HintDb steady discriminated.

#[local] Hint Resolve steady_ret steady_throw steady_getS steady_getK
  steady_effect steady_running steady_newS steady_newK steady_makeRequest
  steady_validated steady_json steady_validate_each : steady.

Ltac steady_step :=
  first
    [ solve [auto with steady]
    | apply steady_bind; [|intros ?]
    | apply steady_finally
    | apply steady_catch; [|intros ?]
    | apply steady_each; intros ?
    | apply steady_find; intros ?
    | apply steady_modS; intros ?; repeat split; (reflexivity || discriminate || auto)
    | apply steady_modK; intros ?; repeat split; (reflexivity || discriminate || auto)
    | match goal with
      | |- steady (match ?x with _ => _ end) => destruct x
      | |- steady (if ?x then _ else _) => destruct x
      end ].

Lemma steady_setupKernel self model : steady (setupKernel self model).
Proof. unfold setupKernel. repeat steady_step. Qed.

Lemma steady_model self : steady (model self).
Proof. unfold model, this_kernel. repeat steady_step. Qed.

Lemma steady_update self record : steady (update self record).
Proof.
  unfold update, kernel_differs, kernel_dispose, _handleModelChange.
  repeat first [ apply steady_setupKernel | apply steady_model | steady_step ].
Qed.

Lemma steady_dispose self : steady (dispose self).
Proof.
  unfold dispose, this_kernel, kernel_dispose. repeat steady_step.
Qed.

Lemma steady_member k data : steady (member k data).
Proof. unfold member. destruct data; auto with steady. Qed.

Section Steady.

Variable makeSettings : ISettings.
Variable validateModel : JSON -> option IModel.
Variable server : list Effect -> Request -> option Response.
Variable fetchModel : string -> option ISettings -> M IModel.
Hypothesis steady_fetchModel : forall id settings, steady (fetchModel id settings).

Lemma steady_new_SessionConnection options id km :
  steady (new_SessionConnection makeSettings options id km).
Proof.
  unfold new_SessionConnection.
  repeat first [ apply steady_setupKernel | steady_step ].
Qed.

Lemma steady_clone self : steady (clone makeSettings self).
Proof.
  unfold clone, this_kernel.
  repeat first [ apply steady_new_SessionConnection | steady_step ].
Qed.

Lemma steady_createSession record settings :
  steady (createSession makeSettings record settings).
Proof. apply steady_new_SessionConnection. Qed.

Lemma steady_connectTo record settings :
  steady (connectTo makeSettings record settings).
Proof.
  unfold connectTo.
  repeat first [ apply steady_clone | apply steady_createSession
               | steady_step ].
Qed.

Lemma steady_startSession options :
  steady (startSession makeSettings validateModel server options).
Proof. unfold startSession. repeat steady_step. Qed.

Lemma steady_startNew options :
  steady (startNew makeSettings validateModel server options).
Proof.
  unfold startNew.
  repeat first [ apply steady_startSession | apply steady_createSession
               | steady_step ].
Qed.

Lemma steady_updateSession id body settings :
  steady (updateSession makeSettings validateModel server id body settings).
Proof. unfold updateSession, updateSession_response. repeat steady_step. Qed.

Lemma steady__patch self body :
  steady (_patch makeSettings validateModel server self body).
Proof.
  unfold _patch. repeat first [ apply steady_updateSession | steady_step ].
Qed.

Lemma steady_throw_if_disposed self : steady (throw_if_disposed self).
Proof. unfold throw_if_disposed. repeat steady_step. Qed.

Lemma steady_changeKernel self options :
  steady (changeKernel makeSettings validateModel server self options).
Proof.
  unfold changeKernel, this_kernel, kernel_dispose.
  repeat first [ apply steady__patch | apply steady_throw_if_disposed
               | steady_step ].
Qed.

Lemma steady_shutdownSession id settings :
  steady (shutdownSession makeSettings server id settings).
Proof.
  unfold shutdownSession. repeat first [ apply steady_member | steady_step ].
Qed.

Lemma steady_shutdown self : steady (shutdown makeSettings server self).
Proof.
  unfold shutdown.
  repeat first [ apply steady_shutdownSession | apply steady_throw_if_disposed
               | steady_step ].
Qed.

Lemma steady_updateFromServer record base :
  steady (updateFromServer record base).
Proof.
  unfold updateFromServer. repeat first [ apply steady_update | steady_step ].
Qed.

Lemma steady_updateRunningSessions records base :
  steady (updateRunningSessions records base).
Proof.
  unfold updateRunningSessions.
  repeat first [ apply steady_update | apply steady_dispose | steady_step ].
Qed.

Lemma steady_listRunning settings :
  steady (listRunning makeSettings validateModel server settings).
Proof. unfold listRunning. repeat steady_step. Qed.

Lemma steady_getSessionModel id settings :
  steady (getSessionModel makeSettings validateModel server id settings).
Proof. unfold getSessionModel. repeat steady_step. Qed.

Lemma steady_findById id settings :
  steady (findById makeSettings fetchModel id settings).
Proof.
  unfold findById.
  repeat first [ apply steady_model | apply steady_fetchModel | steady_step ].
Qed.

Lemma steady_findByPath path settings :
  steady (findByPath makeSettings validateModel server path settings).
Proof.
  unfold findByPath.
  repeat first [ apply steady_model | apply steady_listRunning | steady_step ].
Qed.

End Steady.

(** ** Records applied to a connection with a kernel *)

(** X1.  On a connection that has a kernel connection and a connector and
    no patch in flight, [update] returns.  Afterwards path, name and type
    are the record's, whatever they were; the id and the disposed flag are
    as before (the record's id is not looked at); and the property signals
    emitted are one for each of name, type and path that differs from the
    value before, in that order, and no other. *)
Theorem update_applies_the_record
    (self : SRef) (record : IModel) (w : World) (s : SessionConnection)
    (k : KRef) (kc : KernelConnection) (connect : Connector) :
  sessions w !! self = Some s ->
  _updating s = false ->
  _kernel s = Some k -> kernels w !! k = Some kc ->
  _connectToKernel s = Some connect ->
  exists w' s' fresh,
    update self record w = Ok tt w'
    /\ sessions w' !! self = Some s'
    /\ _id s' = _id s /\ _isDisposed s' = _isDisposed s
    /\ _path s' = m_path record /\ _name s' = m_name record
    /\ _type s' = m_type record
    /\ trace w' = (trace w ++ fresh)%list
    /\ List.filter is_property_changed fresh = property_changes self s record.
Proof.
  intros Hs Hu Hk Hkc Hc.
  assert (Hlt : (self < length (sessions w))%nat)
    by now apply lookup_lt_Some in Hs.
  destruct (filter_property_changes self s record) as [Hpp _].
  rewrite (update_spec _ _ _ _ (Some (k, kc)) Hs (conj Hk Hkc)).
  unfold update_outcome. rewrite Hu, Hc.
  destruct (m_kernel record) as [km|]; [case_bool_decide|];
    eexists; eexists; eexists; (split; [reflexivity|]); cbn;
    rewrite list_lookup_insert_eq by exact Hlt;
    (split; [reflexivity|]);
    do 6 (split; [reflexivity|]); cbn; now rewrite ?Hpp.
Qed.

(** X2.  Under the same conditions, the kernel.  When the record names the
    kernel the connection has (same id), no kernel connection is touched
    and no kernel signal is emitted.  Otherwise the old kernel connection
    is disposed and exactly one kernel signal is emitted, carrying the old
    handle and the new one: null for a record without a kernel, and for a
    record with one the connection the connector made, which the session
    has subscribed to before the signal goes out. *)
Theorem update_swaps_the_kernel
    (self : SRef) (record : IModel) (w : World) (s : SessionConnection)
    (k : KRef) (kc : KernelConnection) (connect : Connector) :
  sessions w !! self = Some s ->
  _updating s = false ->
  _kernel s = Some k -> kernels w !! k = Some kc ->
  _connectToKernel s = Some connect ->
  exists w' s' fresh,
    update self record w = Ok tt w'
    /\ sessions w' !! self = Some s'
    /\ trace w' = (trace w ++ fresh)%list
    /\ if identity_changed kc record then
         kernels w' !! k = Some (disposed kc)
         /\ List.filter is_kernel_changed fresh
            = [EmitKernelChanged self (Some k) (_kernel s')]
         /\ match m_kernel record with
            | None => _kernel s' = None
                      /\ length (kernels w') = length (kernels w)
            | Some km =>
                _kernel s' = Some (length (kernels w))
                /\ kernels w' !! length (kernels w)
                   = Some (connect km (serverSettings s))
                /\ (subscriptions (length (kernels w)) self
                      ++ [EmitKernelChanged self (Some k)
                            (Some (length (kernels w)))])%list
                   `prefix_of` fresh
            end
       else
         kernels w' = kernels w /\ _kernel s' = Some k
         /\ List.filter is_kernel_changed fresh = [].
Proof.
  intros Hs Hu Hk Hkc Hc.
  assert (Hlt : (self < length (sessions w))%nat)
    by now apply lookup_lt_Some in Hs.
  assert (Hklt : (k < length (kernels w))%nat)
    by now apply lookup_lt_Some in Hkc.
  destruct (filter_property_changes self s record) as [_ Hpk].
  rewrite (update_spec _ _ _ _ (Some (k, kc)) Hs (conj Hk Hkc)).
  unfold update_outcome, identity_changed. rewrite Hu, Hc.
  destruct (m_kernel record) as [km|].
  - destruct (decide (kc_id kc = km_id km)) as [Heq|Hne].
    + rewrite (bool_decide_eq_true_2 _ Heq).
      rewrite (bool_decide_eq_false_2 _ (fun H => H Heq)).
      eexists; eexists; eexists. split; [reflexivity|]. cbn.
      rewrite list_lookup_insert_eq by exact Hlt.
      split; [reflexivity|]. split; [reflexivity|].
      split; [reflexivity|]. split; [exact Hk|exact Hpk].
    + rewrite (bool_decide_eq_false_2 _ Hne).
      rewrite (bool_decide_eq_true_2 _ Hne).
      eexists; eexists; eexists. split; [reflexivity|]. cbn.
      rewrite list_lookup_insert_eq by exact Hlt.
      split; [reflexivity|]. split; [reflexivity|].
      split.
      { rewrite lookup_app_l by (now rewrite length_insert).
        now apply list_lookup_insert_eq. }
      split; [cbn; now rewrite Hpk|].
      split; [reflexivity|]. split.
      { rewrite lookup_app_r by (now rewrite length_insert).
        rewrite length_insert.
        now replace (length (kernels w) - length (kernels w))%nat
          with 0%nat by lia. }
      exists (property_changes self s record). reflexivity.
  - eexists; eexists; eexists. split; [reflexivity|]. cbn.
    rewrite list_lookup_insert_eq by exact Hlt.
    split; [reflexivity|]. split; [reflexivity|].
    split; [now apply list_lookup_insert_eq|].
    split; [cbn; now rewrite Hpk|].
    split; [reflexivity|apply length_insert].
Qed.

(** X3.  Applying again the record just applied changes nothing and emits
    nothing, when its kernel is the one the connection has: the second
    call finds every field equal. *)
Theorem update_same_record_again_is_silent
    (self : SRef) (record : IModel) (w : World) (s : SessionConnection)
    (k : KRef) (kc : KernelConnection) (km : KernelModel) :
  sessions w !! self = Some s ->
  _updating s = false ->
  _kernel s = Some k -> kernels w !! k = Some kc ->
  m_kernel record = Some km -> kc_id kc = km_id km ->
  exists w',
    update self record w = Ok tt w'
    /\ update self record w' = Ok tt w'.
Proof.
  intros Hs Hu Hk Hkc Hm Hid.
  assert (Hlt : (self < length (sessions w))%nat)
    by now apply lookup_lt_Some in Hs.
  rewrite (update_spec _ _ _ _ (Some (k, kc)) Hs (conj Hk Hkc)).
  unfold update_outcome at 1.
  rewrite Hu, Hm, (bool_decide_eq_true_2 _ Hid).
  eexists. split; [reflexivity|].
  erewrite (update_spec _ _ _ (applied record s) (Some (k, kc)));
    [|cbn; now apply list_lookup_insert_eq|split; [exact Hk|exact Hkc]].
  unfold update_outcome. cbn [applied set_type set_name set_path _updating].
  rewrite Hu, Hm, (bool_decide_eq_true_2 _ Hid). cbn.
  rewrite list_insert_insert_eq.
  assert (Hnone : property_changes self (applied record s) record = []).
  { unfold property_changes. cbn.
    now rewrite !bool_decide_eq_false_2 by (intros H; now apply H). }
  now rewrite Hnone, app_nil_r.
Qed.

(** X4.  Reading the model back after an applied [update]: path, type and
    name are the record's; the id is the connection's own; the kernel is
    described from the kernel connection now owned, not from the record.
    After a record without a kernel the model cannot be read: the accessor
    throws. *)
Theorem model_after_update
    (self : SRef) (record : IModel) (w : World) (s : SessionConnection)
    (k : KRef) (kc : KernelConnection) (connect : Connector) :
  sessions w !! self = Some s ->
  _updating s = false ->
  _kernel s = Some k -> kernels w !! k = Some kc ->
  _connectToKernel s = Some connect ->
  exists w',
    update self record w = Ok tt w'
    /\ model self w' =
         match m_kernel record with
         | None => Throw TypeError w'
         | Some km =>
             let owned :=
               if bool_decide (kc_id kc = km_id km) then kc
               else connect km (serverSettings s) in
             Ok {| m_id := _id s;
                   m_kernel := Some {| km_id := kc_id owned;
                                       km_name := kc_name owned |};
                   m_path := m_path record;
                   m_type := m_type record;
                   m_name := m_name record |} w'
         end.
Proof.
  intros Hs Hu Hk Hkc Hc.
  assert (Hlt : (self < length (sessions w))%nat)
    by now apply lookup_lt_Some in Hs.
  rewrite (update_spec _ _ _ _ (Some (k, kc)) Hs (conj Hk Hkc)).
  unfold update_outcome. rewrite Hu, Hc.
  destruct (m_kernel record) as [km|]; [case_bool_decide|];
    eexists; (split; [reflexivity|]).
  - rewrite (model_Ok self _ (applied record s) k kc);
      [reflexivity|cbn; now apply list_lookup_insert_eq|exact Hk|exact Hkc].
  - rewrite (model_Ok self _
               (set_kernel (Some (length (kernels w))) (applied record s))
               (length (kernels w)) (connect km (serverSettings s)));
      [reflexivity|cbn; now apply list_lookup_insert_eq|reflexivity|].
    cbn. rewrite lookup_app_r by (now rewrite length_insert).
    rewrite length_insert.
    now replace (length (kernels w) - length (kernels w))%nat
      with 0%nat by lia.
  - apply (model_null_kernel self _ (set_kernel None (applied record s)));
      [cbn; now apply list_lookup_insert_eq|reflexivity].
Qed.

(** ** Disposal *)

Lemma dispose_Ok self w s k kc :
  sessions w !! self = Some s -> _isDisposed s = false ->
  _kernel s = Some k -> kernels w !! k = Some kc ->
  dispose self w =
    Ok tt {| sessions := <[self := set_isDisposed true s]> (sessions w);
             kernels := <[k := disposed kc]> (kernels w);
             runningSessions := runningSessions w;
             trace := trace w ++ [EmitDisposed self; ClearData self] |}.
Proof.
  intros Hs Hd Hk Hkc. unfold dispose.
  rewrite (getS_then _ _ _ _ Hs), Hd.
  rewrite (modS_then _ _ _ _ _ Hs), effect_then.
  erewrite bind_Ok.
  2:{ apply (this_kernel_Ok _ _ (set_isDisposed true s) k); [|exact Hk].
      cbn. apply list_lookup_insert_eq. now apply lookup_lt_Some in Hs. }
  erewrite kernel_dispose_then by exact Hkc.
  unfold effect, with_trace, with_kernels, with_sessions. cbn.
  now rewrite <- app_assoc.
Qed.


Section Requests.

Variable makeSettings : ISettings.
Variable validateModel : JSON -> option IModel.
Variable server : list Effect -> Request -> option Response.

(** X6.  On a disposed connection the four setters and [shutdown] throw
    "Session is disposed" at once: nothing is sent, the flag of the patch
    is not raised, and [changeKernel] has not disposed the kernel. *)
Theorem disposed_connection_rejects_requests
    (self : SRef) (w : World) (s : SessionConnection) :
  sessions w !! self = Some s ->
  _isDisposed s = true ->
  (forall path,
     setPath makeSettings validateModel server self path w
     = Throw (Error "Session is disposed") w)
  /\ (forall name,
        setName makeSettings validateModel server self name w
        = Throw (Error "Session is disposed") w)
  /\ (forall type,
        setType makeSettings validateModel server self type w
        = Throw (Error "Session is disposed") w)
  /\ (forall options,
        changeKernel makeSettings validateModel server self options w
        = Throw (Error "Session is disposed") w)
  /\ shutdown makeSettings server self w
     = Throw (Error "Session is disposed") w.
Proof.
  intros Hs Hd.
  assert (H : throw_if_disposed self w
              = Throw (Error "Session is disposed") w).
  { unfold throw_if_disposed. now rewrite (getS_then _ _ _ _ Hs), Hd. }
  split; [|split; [|split; [|split]]]; intros;
    unfold setPath, setName, setType, changeKernel, shutdown;
    apply bind_Throw; exact H.
Qed.

(** One request, and the answer read. *)
Lemma updateSession_outcome id body settings w :
  updateSession makeSettings validateModel server id body settings w
  = outcome
      (reading validateModel 200
         (server (trace w)
            (updateSession_request makeSettings id body settings)))
      (with_trace
         (trace w
            ++ [Fetch (updateSession_request makeSettings id body settings)])
         w).
Proof.
  unfold updateSession, makeRequest, request, effect, settle, bind, reading.
  destruct (server _ _) as [r|]; [|reflexivity]. cbn.
  unfold updateSession_response.
  destruct (negb (rs_status r =? 200)); [reflexivity|].
  unfold json, validated, bind, ret, throw.
  destruct (rs_json r) as [d|]; [|reflexivity].
  now destruct (validateModel d).
Qed.

Lemma _patch_outcome self body w s :
  sessions w !! self = Some s ->
  _patch makeSettings validateModel server self body w
  = outcome
      (reading validateModel 200
         (server (trace w)
            (updateSession_request makeSettings (_id s) body
               (Some (serverSettings s)))))
      (patched makeSettings self s body w).
Proof.
  intros Hs. unfold _patch. rewrite (modS_then _ _ _ _ _ Hs).
  set (w1 := with_sessions _ w).
  assert (Hs1 : sessions w1 !! self = Some (set_updating true s))
    by now apply (lookup_written _ _ s).
  unfold finally. rewrite (getS_then _ _ _ _ Hs1).
  rewrite updateSession_outcome.
  change (trace w1) with (trace w).
  cbn [set_updating _id serverSettings].
  destruct (reading _ _ _) as [e|m]; cbn [outcome];
    (erewrite modS_Ok
       by (cbn; apply list_lookup_insert_eq; now apply lookup_lt_Some in Hs));
    unfold patched; cbn; now rewrite list_insert_insert_eq.
Qed.

(** X7.  A setter on a connection not disposed sends its one-member patch,
    and ends as the answer is read: network failure, a status other than
    200, a body that is not JSON and a record that does not validate are
    thrown as such, anything else is success.  On every one of these paths
    the store afterwards is the same: the request in the trace, the
    [_updating] flag clear, and the connection otherwise as it was. *)
Theorem setters_end_as_the_answer_reads
    (self : SRef) (w : World) (s : SessionConnection) :
  sessions w !! self = Some s ->
  _isDisposed s = false ->
  let ends (body : JSON) : Res unit :=
    outcome
      (match reading validateModel 200
               (server (trace w)
                  (updateSession_request makeSettings (_id s) body
                     (Some (serverSettings s)))) with
       | inl e => inl e
       | inr _ => inr tt
       end)
      (patched makeSettings self s body w) in
  (forall path,
     setPath makeSettings validateModel server self path w
     = ends (JObj [("path", JStr path)]))
  /\ (forall name,
        setName makeSettings validateModel server self name w
        = ends (JObj [("name", JStr name)]))
  /\ (forall type,
        setType makeSettings validateModel server self type w
        = ends (JObj [("type", JStr type)])).
Proof.
  intros Hs Hd ends.
  assert (H : throw_if_disposed self w = Ok tt w).
  { unfold throw_if_disposed. now rewrite (getS_then _ _ _ _ Hs), Hd. }
  split; [|split]; intros x; unfold setPath, setName, setType, ends;
    rewrite (bind_Ok _ _ _ _ _ H); unfold bind;
    rewrite (_patch_outcome _ _ _ _ Hs);
    now destruct (reading _ _ _).
Qed.


(** X9.  A record that arrives while a patch is in flight is dropped: with
    [update] between the two halves of [_patch], the call ends as it does
    without it, in the same store. *)
Theorem update_during_patch_is_dropped
    (self : SRef) (body : JSON) (record : IModel)
    (answer : option Response) (w : World) (s : SessionConnection) :
  sessions w !! self = Some s ->
  (_patch_begin makeSettings self body;;
   update self record;;
   _patch_end validateModel self answer) w
  = (_patch_begin makeSettings self body;;
     _patch_end validateModel self answer) w.
Proof.
  intros Hs. unfold _patch_begin. rewrite !bind_assoc.
  rewrite !(modS_then _ _ _ _ _ Hs).
  set (w1 := with_sessions _ w).
  assert (Hs1 : sessions w1 !! self = Some (set_updating true s))
    by now apply (lookup_written _ _ s).
  rewrite !bind_assoc, !(getS_then _ _ _ _ Hs1).
  unfold request. rewrite !effect_then.
  set (w2 := with_trace _ w1).
  assert (Hs2 : sessions w2 !! self = Some (set_updating true s))
    by exact Hs1.
  now rewrite (bind_Ok _ _ _ _ _
                 (update_guarded _ record _ _ Hs2 eq_refl)).
Qed.

End Requests.

(** ** Clones *)

Lemma or_str_empty n : or_str (Some n) "" = n.
Proof. unfold or_str. now case_bool_decide. Qed.

Section Clones.

Variable makeSettings : ISettings.

Lemma new_SessionConnection_connect options id km connect w :
  o_connectToKernel options = Some connect ->
  new_SessionConnection makeSettings options id (Some km) w =
    Ok (length (sessions w))
      {| sessions :=
           sessions w
             ++ [set_kernel (Some (length (kernels w)))
                   (constructed makeSettings options id)];
         kernels :=
           kernels w
             ++ [connect km
                   (default makeSettings (o_serverSettings options))];
         runningSessions := runningSessions w;
         trace :=
           trace w ++ subscriptions (length (kernels w)) (length (sessions w))
      |}.
Proof.
  intros Hc. unfold new_SessionConnection, newS. unfold bind at 1.
  erewrite bind_Ok.
  2:{ apply (setupKernel_connect _ _ (constructed makeSettings options id)
               km connect); [cbn; apply lookup_last|exact Hc]. }
  unfold ret. cbn. now rewrite insert_last.
Qed.

(** X10.  [clone] of a connection with a kernel and a connector, disposed
    or not, patching or not: it returns a new connection and leaves the
    old one and the registry as they were.  The new one has the id, path,
    name, settings and connector of the old, its type too unless that is
    empty, in which case it is [file]; it is neither disposed nor
    patching; and its kernel connection is a new one, made by the
    connector from the id and name of the old kernel connection, to which
    the new connection, and not the old, is subscribed. *)
Theorem clone_makes_a_connection_of_its_own
    (self : SRef) (w : World) (s : SessionConnection)
    (k : KRef) (kc : KernelConnection) (connect : Connector) :
  sessions w !! self = Some s ->
  _kernel s = Some k -> kernels w !! k = Some kc ->
  _connectToKernel s = Some connect ->
  exists w' c,
    clone makeSettings self w = Ok (length (sessions w)) w'
    /\ sessions w' = (sessions w ++ [c])%list
    /\ (_id c = _id s /\ _path c = _path s /\ _name c = _name s
        /\ _type c = (if bool_decide (_type s = "") then "file" else _type s)
        /\ serverSettings c = serverSettings s
        /\ _connectToKernel c = _connectToKernel s)
    /\ (_isDisposed c = false /\ _updating c = false)
    /\ _kernel c = Some (length (kernels w))
    /\ kernels w' =
         (kernels w
            ++ [connect {| km_id := kc_id kc; km_name := kc_name kc |}
                  (serverSettings s)])%list
    /\ trace w' =
         (trace w
            ++ subscriptions (length (kernels w)) (length (sessions w)))%list
    /\ runningSessions w' = runningSessions w.
Proof.
  intros Hs Hk Hkc Hc. unfold clone.
  rewrite (getS_then _ _ _ _ Hs).
  rewrite (bind_Ok _ _ _ _ _ (this_kernel_Ok _ _ _ _ Hs Hk)).
  rewrite (bind_Ok _ _ _ _ _ (getK_Ok _ _ _ Hkc)).
  rewrite (new_SessionConnection_connect _ _ _ connect) by exact Hc.
  eexists; eexists. split; [reflexivity|].
  cbn [sessions kernels trace runningSessions].
  split; [reflexivity|]. split.
  { split; [reflexivity|]. split; [reflexivity|].
    split; [apply or_str_empty|]. split; [reflexivity|].
    split; reflexivity. }
  split; [split; reflexivity|]. split; [reflexivity|].
  split; [reflexivity|]. split; reflexivity.
Qed.

(** X11.  A connection and its clone are disposed apart.  Disposing the
    original leaves the clone and the clone's kernel connection as they
    were; disposing the clone leaves the original and its kernel
    connection as they were. *)
Theorem clone_and_original_are_disposed_apart
    (self : SRef) (w : World) (s : SessionConnection)
    (k : KRef) (kc : KernelConnection) (connect : Connector) :
  sessions w !! self = Some s ->
  _isDisposed s = false ->
  _kernel s = Some k -> kernels w !! k = Some kc ->
  _connectToKernel s = Some connect ->
  exists w' c k',
    clone makeSettings self w = Ok c w'
    /\ _kernel <$> sessions w' !! c = Some (Some k')
    /\ (exists w1,
          dispose self w' = Ok tt w1
          /\ sessions w1 !! c = sessions w' !! c
          /\ kernels w1 !! k' = kernels w' !! k')
    /\ (exists w2,
          dispose c w' = Ok tt w2
          /\ sessions w2 !! self = Some s
          /\ kernels w2 !! k = Some kc).
Proof.
  intros Hs Hd Hk Hkc Hc.
  assert (Hlt : (self < length (sessions w))%nat)
    by now apply lookup_lt_Some in Hs.
  assert (Hklt : (k < length (kernels w))%nat)
    by now apply lookup_lt_Some in Hkc.
  unfold clone.
  rewrite (getS_then _ _ _ _ Hs).
  rewrite (bind_Ok _ _ _ _ _ (this_kernel_Ok _ _ _ _ Hs Hk)).
  rewrite (bind_Ok _ _ _ _ _ (getK_Ok _ _ _ Hkc)).
  rewrite (new_SessionConnection_connect _ _ _ connect) by exact Hc.
  eexists; exists (length (sessions w)), (length (kernels w)).
  split; [reflexivity|]. cbn [sessions kernels].
  split; [now rewrite lookup_last|]. split.
  - eexists. split.
    + apply (dispose_Ok _ _ s k kc); cbn;
        [now rewrite lookup_app_l|exact Hd|exact Hk|now rewrite lookup_app_l].
    + cbn. split; apply list_lookup_insert_ne; lia.
  - eexists. split.
    + eapply dispose_Ok; cbn;
        [apply lookup_last|reflexivity|reflexivity|apply lookup_last].
    + cbn. split.
      * rewrite list_lookup_insert_ne by lia. now rewrite lookup_app_l.
      * rewrite list_lookup_insert_ne by lia. now rewrite lookup_app_l.
Qed.

End Clones.

(** ** Which connections an operation writes to *)

Lemma touches_ret P {A} (a : A) : touches_only P (ret a).
Proof. intros w r s _ H. exact H. Qed.

Lemma touches_throw P {A} e : touches_only P (@throw A e).
Proof. intros w r s _ H. exact H. Qed.

Lemma touches_bind P {A B} (m : M A) (k : A -> M B) :
  touches_only P m -> (forall a, touches_only P (k a)) ->
  touches_only P (bind m k).
Proof.
  intros Hm Hk w r s Hr Hs. unfold bind. specialize (Hm w r s Hr Hs).
  destruct (m w) as [a w'|e w']; cbn in Hm; [|exact Hm].
  now apply Hk.
Qed.

Lemma touches_weaken (P Q : SRef -> Prop) {A} (m : M A) :
  (forall r, P r -> Q r) -> touches_only P m -> touches_only Q m.
Proof. intros HPQ Hm w r s Hr Hs. apply Hm; [|exact Hs]. auto. Qed.

Lemma touches_getS P self : touches_only P (getS self).
Proof.
  intros w r s _ H. unfold getS. now destruct (sessions w !! self).
Qed.

Lemma touches_getK P k : touches_only P (getK k).
Proof. intros w r s _ H. unfold getK. now destruct (kernels w !! k). Qed.

Lemma touches_effect P e : touches_only P (effect e).
Proof. intros w r s _ H. exact H. Qed.

Lemma touches_newK P c : touches_only P (newK c).
Proof. intros w r s _ H. exact H. Qed.

Lemma touches_modK P k f : touches_only P (modK k f).
Proof. intros w r s _ H. unfold modK. now destruct (kernels w !! k). Qed.

Lemma touches_modS (P : SRef -> Prop) self f :
  P self -> touches_only P (modS self f).
Proof.
  intros HP w r s Hr Hs. unfold modS.
  destruct (sessions w !! self); [|exact Hs]. cbn.
  rewrite list_lookup_insert_ne; [exact Hs|]. intros ->. now apply Hr.
Qed.

Create HintDb touches discriminated.

#[local] Hint Resolve touches_ret touches_throw touches_getS touches_getK
  touches_effect touches_newK touches_modK : touches.

Ltac touches_step :=
  first
    [ solve [auto with touches]
    | apply touches_bind; [|intros ?]
    | apply touches_modS; reflexivity
    | match goal with
      | |- touches_only _ (match ?x with _ => _ end) => destruct x
      | |- touches_only _ (if ?x then _ else _) => destruct x
      end ].

Lemma touches_setupKernel self model :
  touches_only (eq self) (setupKernel self model).
Proof. unfold setupKernel. repeat touches_step. Qed.

Lemma touches_model self : touches_only (eq self) (model self).
Proof. unfold model, this_kernel. repeat touches_step. Qed.

Lemma touches_update self record :
  touches_only (eq self) (update self record).
Proof.
  unfold update, kernel_differs, kernel_dispose, _handleModelChange.
  repeat first
    [ apply touches_setupKernel | apply touches_model | touches_step ].
Qed.

Lemma touches_dispose self : touches_only (eq self) (dispose self).
Proof. unfold dispose, this_kernel, kernel_dispose. repeat touches_step. Qed.

Lemma touches_reconcile records session :
  touches_only (eq session) (reconcile records session).
Proof.
  unfold reconcile.
  repeat first [ apply touches_update | apply touches_dispose | touches_step ].
Qed.

(** A loop over [l] whose body writes only to the element it is at writes
    only to elements of [l]. *)
Lemma touches_each (l : list SRef) (f : SRef -> M unit) :
  (forall x, touches_only (eq x) (f x)) ->
  touches_only (fun r => r ∈ l) (each l f).
Proof.
  intros Hf. induction l as [|x l IH]; [apply touches_ret|].
  cbn. apply touches_bind.
  - eapply touches_weaken; [|apply Hf]. intros r <-. apply list_elem_of_here.
  - intros _. eapply touches_weaken; [|exact IH].
    intros r Hr. now apply list_elem_of_further.
Qed.

Lemma keeps_each {A} (l : list A) (f : A -> M unit) :
  (forall x, keeps_disposal (f x)) -> keeps_disposal (each l f).
Proof.
  intros Hf. induction l as [|x l IH]; [apply keeps_ret|].
  cbn. apply keeps_bind; [apply Hf|intros _; exact IH].
Qed.

(** The body of the loop of [updateFromServer] passes by a connection of
    another id. *)
Lemma updateFromServer_passes_by record (l : list SRef) w r s :
  sessions w !! r = Some s -> _id s <> m_id record ->
  sessions
    (world_of
       (each l (fun session =>
          let* s := getS session in
          if bool_decide (_id s = m_id record) then update session record
          else ret tt) w)) !! r = Some s.
Proof.
  intros Hs Hid. revert w Hs.
  induction l as [|x l IH]; intros w Hs; [exact Hs|].
  cbn [each]. unfold bind at 1.
  assert (Hx : sessions
                 (world_of
                    ((let* s := getS x in
                      if bool_decide (_id s = m_id record)
                      then update x record else ret tt) w)) !! r = Some s).
  { destruct (sessions w !! x) as [sx|] eqn:Hsx.
    - rewrite (getS_then _ _ _ _ Hsx). case_bool_decide; [|exact Hs].
      apply touches_update; [|exact Hs]. intros ->. congruence.
    - unfold bind, getS. now rewrite Hsx. }
  destruct ((let* s := getS x in _) w) as [[] w1|e w1]; cbn in Hx;
    [now apply IH|exact Hx].
Qed.

(** X12.  [updateFromServer] writes only to tracked connections that carry
    the record's id: a connection of another id, and a connection the
    registry does not track at that endpoint (a clone, say), is afterwards
    what it was.  It disposes nothing: every [_isDisposed] flag is as
    before. *)
Theorem updateFromServer_writes_only_to_its_session
    (record : IModel) (base : string) (w : World)
    (r : SRef) (s : SessionConnection) :
  sessions w !! r = Some s ->
  (_id s <> m_id record \/ r ∉ default [] (runningSessions w !! base)) ->
  sessions (world_of (updateFromServer record base w)) !! r = Some s
  /\ _isDisposed <$> sessions (world_of (updateFromServer record base w))
     = _isDisposed <$> sessions w.
Proof.
  intros Hs Hor. split.
  - unfold updateFromServer, running. unfold bind at 1.
    set (l := default [] (runningSessions w !! base)) in *.
    assert (H : sessions
                  (world_of
                     (each l (fun session =>
                        let* s := getS session in
                        if bool_decide (_id s = m_id record)
                        then update session record else ret tt) w)) !! r
                = Some s).
    { destruct Hor as [Hid|Hnot].
      - now apply updateFromServer_passes_by.
      - apply (touches_each l); [|exact Hnot|exact Hs].
        intros x. repeat first [ apply touches_update | touches_step ]. }
    unfold bind. destruct (each l _ w); exact H.
  - apply (keeps_bind (running base)); [intros w0; reflexivity|].
    intros l. apply keeps_bind; [|intros _; apply keeps_ret].
    apply keeps_each. intros x.
    repeat first [ apply keeps_update | keeps_step ].
Qed.

(** X13.  Reconciliation reaches tracked connections only: a connection
    that the registry does not track at the endpoint is neither updated
    nor disposed by [updateRunningSessions], whatever the list holds. *)
Theorem reconciliation_leaves_untracked_alone
    (records : list IModel) (base : string) (w : World)
    (r : SRef) (s : SessionConnection) :
  sessions w !! r = Some s ->
  r ∉ default [] (runningSessions w !! base) ->
  sessions (world_of (updateRunningSessions records base w)) !! r = Some s.
Proof.
  intros Hs Hnot.
  rewrite (proj1 (updateRunningSessions_reconciles records base w)).
  set (l := default [] (runningSessions w !! base)) in *.
  assert (H : sessions (world_of (each l (reconcile records) w)) !! r
              = Some s).
  { apply (touches_each l); [|exact Hnot|exact Hs].
    intros x. apply touches_reconcile. }
  unfold bind. destruct (each l _ w); exact H.
Qed.

(** ** Reconciling against an empty list *)

(** The loop of reconciliation against no record at all, over connections
    that each have a kernel: it runs to its end; every connection and
    kernel connection evolves, the connections keeping their kernels;
    every connection of the list is disposed afterwards, and the kernel
    connection of each one that was not is disposed too. *)
Lemma each_reconcile_nothing (l : list SRef) w :
  Forall (fun r => exists s k kc,
            sessions w !! r = Some s /\ _kernel s = Some k
            /\ kernels w !! k = Some kc) l ->
  exists w',
    each l (reconcile []) w = Ok tt w'
    /\ evolves w w'
    /\ (forall r s, sessions w !! r = Some s ->
          exists s', sessions w' !! r = Some s' /\ _kernel s' = _kernel s)
    /\ Forall (fun r => exists s',
                 sessions w' !! r = Some s' /\ _isDisposed s' = true) l
    /\ Forall (fun r => forall s k,
                 sessions w !! r = Some s -> _isDisposed s = false ->
                 _kernel s = Some k ->
                 exists kc', kernels w' !! k = Some kc'
                             /\ kc_isDisposed kc' = true) l.
Proof.
  revert w. induction l as [|x l IH]; intros w Hall.
  { exists w. split; [reflexivity|]. split; [apply evolves_refl|].
    split; [intros r s Hs; now exists s|]. split; constructor. }
  apply Forall_cons in Hall as [(s & k & kc & Hs & Hk & Hkc) Hall].
  (* the head *)
  assert (Hhead : exists w1,
            reconcile [] x w = Ok tt w1
            /\ evolves w w1
            /\ (forall r s0, sessions w !! r = Some s0 ->
                  exists s', sessions w1 !! r = Some s'
                             /\ _kernel s' = _kernel s0)
            /\ (exists s', sessions w1 !! x = Some s'
                           /\ _isDisposed s' = true)
            /\ (_isDisposed s = false ->
                exists kc', kernels w1 !! k = Some kc'
                            /\ kc_isDisposed kc' = true)).
  { unfold reconcile. rewrite (getS_then _ _ _ _ Hs). cbn [matching List.find].
    destruct (_isDisposed s) eqn:Hd.
    - exists w. split; [reflexivity|]. split; [apply evolves_refl|].
      split; [intros r s0 H0; now exists s0|].
      split; [now exists s|discriminate].
    - pose proof (steady_dispose x w) as Hev.
      rewrite (dispose_Ok _ _ _ _ _ Hs Hd Hk Hkc) in *. cbn in Hev.
      eexists. split; [reflexivity|]. split; [exact Hev|].
      assert (Hlt : (x < length (sessions w))%nat)
        by now apply lookup_lt_Some in Hs.
      split; [|split].
      + intros r s0 H0. cbn. destruct (decide (x = r)) as [->|Hne].
        * rewrite list_lookup_insert_eq by exact Hlt.
          eexists. split; [reflexivity|]. cbn. congruence.
        * rewrite list_lookup_insert_ne by exact Hne. now exists s0.
      + cbn. rewrite list_lookup_insert_eq by exact Hlt.
        eexists. split; reflexivity.
      + intros _. cbn. rewrite list_lookup_insert_eq
          by (now apply lookup_lt_Some in Hkc).
        eexists. split; reflexivity. }
  destruct Hhead as (w1 & H1 & Hev1 & Hker1 & Hx1 & Hk1).
  (* the rest, from the store the head left *)
  assert (Hall1 : Forall (fun r => exists s k kc,
                    sessions w1 !! r = Some s /\ _kernel s = Some k
                    /\ kernels w1 !! k = Some kc) l).
  { eapply Forall_impl; [exact Hall|].
    intros r (s0 & k0 & kc0 & H0 & Hk0 & Hkc0).
    destruct (Hker1 r s0 H0) as (s' & Hs' & Hks').
    destruct (proj1 (proj2 Hev1) k0 kc0 Hkc0) as (kc' & Hkc' & _).
    exists s', k0, kc'. repeat split; [exact Hs'|congruence|exact Hkc']. }
  destruct (IH w1 Hall1) as (w' & Hrest & Hev & Hker & Hdis & Hkdis).
  exists w'. split; [cbn [each]; now rewrite (bind_Ok _ _ _ _ _ H1)|].
  split; [eapply evolves_trans; eassumption|]. split; [|split].
  - intros r s0 H0. destruct (Hker1 r s0 H0) as (s1 & Hs1 & Hk01).
    destruct (Hker r s1 Hs1) as (s' & Hs' & Hk').
    exists s'. split; [exact Hs'|congruence].
  - constructor; [|exact Hdis].
    destruct Hx1 as (s1 & Hs1 & Hd1).
    destruct (proj1 Hev x s1 Hs1) as (s' & Hs' & _ & _ & _ & Hmono).
    exists s'. split; [exact Hs'|auto].
  - constructor.
    + intros s0 k0 H0 Hd0 Hk0.
      assert (s0 = s) as -> by congruence.
      assert (k0 = k) as -> by congruence.
      destruct (Hk1 Hd0) as (kc1 & Hkc1 & Hkd1).
      destruct (proj1 (proj2 Hev) k kc1 Hkc1) as (kc' & Hkc' & _ & _ & Hmono).
      exists kc'. split; [exact Hkc'|auto].
    + rewrite Forall_forall in Hkdis |- *. intros r Hr s0 k0 H0 Hd0 Hk0.
      destruct (Hker1 r s0 H0) as (s1 & Hs1 & Hk01).
      destruct (decide (_isDisposed s1 = false)) as [Hd1|Hd1].
      * apply (Hkdis r Hr s1 k0 Hs1 Hd1). congruence.
      * (* the head was this very connection *)
        destruct (proj1 Hev1 r s0 H0) as (s1' & Hs1' & _).
        assert (s1' = s1) as -> by congruence.
        assert (Hrx : r = x).
        { destruct (decide (r = x)) as [|Hne]; [assumption|exfalso].
          apply Hd1.
          pose proof (touches_reconcile [] x w r s0) as Ht.
          rewrite H1 in Ht. cbn in Ht.
          rewrite Ht in Hs1 by (congruence || assumption).
          congruence. }
        subst r. assert (s0 = s) as -> by congruence.
        assert (k0 = k) as -> by congruence.
        destruct (Hk1 Hd0) as (kc1 & Hkc1 & Hkd1).
        destruct (proj1 (proj2 Hev) k kc1 Hkc1)
          as (kc' & Hkc' & _ & _ & Hmono).
        exists kc'. split; [exact Hkc'|auto].
Qed.

(** X14.  When the server reports no session at all and every connection
    tracked at the endpoint has a kernel, [updateRunningSessions] returns
    (its result is the empty list it was given) and every tracked
    connection is disposed afterwards; the kernel connection of each one
    that was not disposed on entry is disposed as well.  The registry
    still tracks them all. *)
Theorem reconciling_with_nothing_disposes_all (base : string) (w : World) :
  let tracked := default [] (runningSessions w !! base) in
  Forall (fun r => exists s k kc,
            sessions w !! r = Some s /\ _kernel s = Some k
            /\ kernels w !! k = Some kc) tracked ->
  exists w',
    updateRunningSessions [] base w = Ok [] w'
    /\ Forall (fun r => exists s',
                 sessions w' !! r = Some s' /\ _isDisposed s' = true) tracked
    /\ Forall (fun r => forall s k,
                 sessions w !! r = Some s -> _isDisposed s = false ->
                 _kernel s = Some k ->
                 exists kc', kernels w' !! k = Some kc'
                             /\ kc_isDisposed kc' = true) tracked
    /\ runningSessions w' = runningSessions w.
Proof.
  intros tracked Hall.
  destruct (each_reconcile_nothing tracked w Hall)
    as (w' & Hrun & Hev & _ & Hdis & Hkdis).
  exists w'.
  rewrite (proj1 (updateRunningSessions_reconciles [] base w)).
  fold tracked. rewrite (bind_Ok _ _ _ _ _ Hrun).
  split; [reflexivity|]. split; [exact Hdis|]. split; [exact Hkdis|].
  exact (proj1 (proj2 (proj2 Hev))).
Qed.

(** X15.  [updateRunningSessions] is the reconciliation as one would
    describe it: it reads the connections tracked at the endpoint once, on
    entry, and goes through them in order; for each it looks for the first
    record of the same id and, if there is one, calls [update] with it
    (the later records of that id are not looked at), and if there is
    none, calls [dispose] unless the connection is disposed already.  The
    first exception leaves the loop. *)
Theorem reconciliation_is_a_loop_over_the_snapshot
    (records : list IModel) (base : string) (w : World) :
  updateRunningSessions records base w
  = (each (default [] (runningSessions w !! base)) (reconcile records);;
     ret records) w.
Proof. exact (proj1 (updateRunningSessions_reconciles records base w)). Qed.

(** ** The reads, and the lookups built on them *)

Lemma model_world self w : world_of (model self w) = w.
Proof.
  destruct (sessions w !! self) as [s|] eqn:Hs.
  - destruct (_kernel s) as [k|] eqn:Hk.
    + destruct (kernels w !! k) as [kc|] eqn:Hkc.
      * now rewrite (model_Ok _ _ _ _ _ Hs Hk Hkc).
      * unfold model. rewrite (getS_then _ _ _ _ Hs).
        rewrite (bind_Ok _ _ _ _ _ (this_kernel_Ok _ _ _ _ Hs Hk)).
        unfold bind, getK. now rewrite Hkc.
    + now rewrite (model_null_kernel _ _ _ Hs Hk).
  - unfold model, bind, getS. now rewrite Hs.
Qed.

Section Reads.

Variable makeSettings : ISettings.
Variable validateModel : JSON -> option IModel.
Variable server : list Effect -> Request -> option Response.
Variable fetchModel : string -> option ISettings -> M IModel.

Lemma validate_each_spec items w :
  validate_each validateModel items w
  = match mapM validateModel items with
    | Some ms => Ok ms w
    | None => Throw ValidationError w
    end.
Proof.
  induction items as [|d items IH]; [reflexivity|].
  cbn [validate_each mapM]. unfold bind at 1. unfold validated.
  destruct (validateModel d) as [m|]; [|reflexivity]. cbn.
  unfold bind. rewrite IH. now destruct (mapM validateModel items).
Qed.

(** X16.  The three functions of restapi.ts that fetch one record send
    exactly one request and do nothing else, and end as the answer is
    read: [getSessionModel] and [updateSession] expect status 200,
    [startSession] 201; a lost connection, another status, a body that is
    not JSON and a record that does not validate are thrown, in that
    order of precedence; nothing is retried. *)
Theorem requests_end_as_the_answer_reads (w : World) :
  let sent (rq : Request) := with_trace (trace w ++ [Fetch rq]) w in
  (forall id settings,
     getSessionModel makeSettings validateModel server id settings w
     = outcome
         (reading validateModel 200
            (server (trace w)
               (getSessionModel_request makeSettings id settings)))
         (sent (getSessionModel_request makeSettings id settings)))
  /\ (forall id body settings,
        updateSession makeSettings validateModel server id body settings w
        = outcome
            (reading validateModel 200
               (server (trace w)
                  (updateSession_request makeSettings id body settings)))
            (sent (updateSession_request makeSettings id body settings)))
  /\ (forall options,
        startSession makeSettings validateModel server options w
        = outcome
            (reading validateModel 201
               (server (trace w) (startSession_request makeSettings options)))
            (sent (startSession_request makeSettings options))).
Proof.
  intros sent. split; [|split]; intros;
    unfold getSessionModel, updateSession, updateSession_response,
      startSession, makeRequest, request, effect, settle, bind, reading, sent;
    (destruct (server _ _) as [r|]; [|reflexivity]); cbn;
    (destruct (negb (rs_status r =? _)); [reflexivity|]);
    unfold json, validated, bind, ret, throw;
    (destruct (rs_json r) as [d|]; [|reflexivity]);
    now destruct (validateModel d).
Qed.

Lemma listRunning_outcome settings w :
  listRunning makeSettings validateModel server settings w
  = outcome
      (reading_list validateModel
         (server (trace w) (listRunning_request makeSettings settings)))
      (with_trace
         (trace w ++ [Fetch (listRunning_request makeSettings settings)]) w).
Proof.
  unfold listRunning, makeRequest, request, effect, settle, bind,
    reading_list.
  destruct (server _ _) as [r|]; [|reflexivity]. cbn.
  destruct (negb (rs_status r =? 200)); [reflexivity|].
  unfold json, bind, ret, throw.
  destruct (rs_json r) as [d|]; [|reflexivity].
  destruct d; try reflexivity.
  rewrite validate_each_spec. now destruct (mapM validateModel items).
Qed.


(** [find] over the tracked references with a test on the connection. *)
Lemma find_tracked (test : SessionConnection -> bool) (l : list SRef) w :
  Forall (fun r => is_Some (sessions w !! r)) l ->
  find l (fun value => let* v := getS value in ret (test v)) w
  = Ok (first_tracked test l w) w.
Proof.
  induction 1 as [|r l [s Hs] _ IH]; [reflexivity|].
  cbn [find first_tracked]. unfold bind at 1.
  rewrite (getS_then _ _ _ _ Hs), Hs. unfold ret at 1.
  destruct (test s); [reflexivity|exact IH].
Qed.

Lemma first_tracked_Some test l w r :
  first_tracked test l w = Some r ->
  r ∈ l /\ exists s, sessions w !! r = Some s /\ test s = true.
Proof.
  induction l as [|x l IH]; [discriminate|]. cbn.
  destruct (sessions w !! x) as [s|] eqn:Hs; [|discriminate].
  destruct (test s) eqn:Ht.
  - intros [= <-]. split; [apply list_elem_of_here|]. now exists s.
  - intros H. destruct (IH H) as [Hin Hex].
    split; [now apply list_elem_of_further|exact Hex].
Qed.

(** X18.  [findById], every tracked reference naming a connection.  If a
    connection of that id is tracked at the endpoint, the answer is the
    model of the first such, read on the spot: nothing is sent and the
    store is untouched (and the call throws if that connection has no
    kernel).  Otherwise the record is fetched, and whatever goes wrong
    with that comes out as "No running session for id", the original
    error being dropped. *)
Theorem findById_looks_in_the_registry_first
    (id : string) (settings : option ISettings) (w : World) :
  let tracked :=
    default [] (runningSessions w
                  !! baseUrl (default makeSettings settings)) in
  Forall (fun r => is_Some (sessions w !! r)) tracked ->
  match first_tracked (fun s => bool_decide (_id s = id)) tracked w with
  | Some r =>
      findById makeSettings fetchModel id settings w = model r w
      /\ world_of (findById makeSettings fetchModel id settings w) = w
      /\ exists s, sessions w !! r = Some s /\ _id s = id
  | None =>
      findById makeSettings fetchModel id settings w
      = match fetchModel id (Some (default makeSettings settings)) w with
        | Ok m w' => Ok m w'
        | Throw _ w' =>
            Throw (Error ("No running session for id: " ++ id)) w'
        end
  end.
Proof.
  intros tracked Hall.
  assert (H : findById makeSettings fetchModel id settings w
              = match first_tracked (fun s => bool_decide (_id s = id))
                        tracked w with
                | Some r => model r w
                | None =>
                    catch (fetchModel id (Some (default makeSettings settings)))
                      (fun _ =>
                         throw (Error ("No running session for id: " ++ id)))
                      w
                end).
  { unfold findById, running. unfold bind at 1. fold tracked.
    rewrite (bind_Ok _ _ _ _ _ (find_tracked _ _ _ Hall)).
    now destruct (first_tracked _ tracked w). }
  rewrite H.
  destruct (first_tracked _ tracked w) as [r|] eqn:Hf.
  - split; [reflexivity|]. split; [apply model_world|].
    destruct (first_tracked_Some _ _ _ _ Hf) as (_ & s & Hs & Ht).
    exists s. split; [exact Hs|]. now apply bool_decide_eq_true_1 in Ht.
  - reflexivity.
Qed.

(** X19.  [findByPath], every tracked reference naming a connection.  If
    a connection of that path is tracked at the endpoint, the answer is
    the model of the first such, and nothing is sent.  Otherwise the
    sessions are listed, and the answer is the first record of the list
    with that path; a failure of the listing is thrown as it is, and a
    list without such a record gives "No running session for path". *)
Theorem findByPath_looks_in_the_registry_first
    (path : string) (settings : option ISettings) (w : World) :
  let settings' := default makeSettings settings in
  let tracked := default [] (runningSessions w !! baseUrl settings') in
  Forall (fun r => is_Some (sessions w !! r)) tracked ->
  match first_tracked (fun s => bool_decide (_path s = Some path))
          tracked w with
  | Some r =>
      findByPath makeSettings validateModel server path settings w
      = model r w
      /\ world_of (findByPath makeSettings validateModel server path
                     settings w) = w
      /\ exists s, sessions w !! r = Some s /\ _path s = Some path
  | None =>
      findByPath makeSettings validateModel server path settings w
      = outcome
          (match reading_list validateModel
                   (server (trace w)
                      (listRunning_request makeSettings (Some settings')))
           with
           | inl e => inl e
           | inr models =>
               match List.find
                       (fun value => bool_decide (m_path value = Some path))
                       models with
               | Some m => inr m
               | None => inl (Error ("No running session for path: " ++ path))
               end
           end)
          (with_trace
             (trace w
                ++ [Fetch (listRunning_request makeSettings (Some settings'))])
             w)
  end.
Proof.
  intros settings' tracked Hall.
  assert (H : findByPath makeSettings validateModel server path settings w
              = match first_tracked
                        (fun s => bool_decide (_path s = Some path))
                        tracked w with
                | Some r => model r w
                | None =>
                    (let* models :=
                       listRunning makeSettings validateModel server
                         (Some settings') in
                     match List.find
                             (fun value =>
                                bool_decide (m_path value = Some path))
                             models with
                     | Some m => ret m
                     | None =>
                         throw (Error ("No running session for path: "
                                         ++ path))
                     end) w
                end).
  { unfold findByPath, running. unfold bind at 1. fold settings' tracked.
    rewrite (bind_Ok _ _ _ _ _ (find_tracked _ _ _ Hall)).
    now destruct (first_tracked _ tracked w). }
  rewrite H.
  destruct (first_tracked _ tracked w) as [r|] eqn:Hf.
  - split; [reflexivity|]. split; [apply model_world|].
    destruct (first_tracked_Some _ _ _ _ Hf) as (_ & s & Hs & Ht).
    exists s. split; [exact Hs|]. now apply bool_decide_eq_true_1 in Ht.
  - unfold bind.
    rewrite listRunning_outcome.
    destruct (reading_list _ _) as [e|models]; [reflexivity|]. cbn.
    now destruct (List.find _ models).
Qed.

End Reads.

(** ** What no operation does *)

Section Invariants.

Variable makeSettings : ISettings.
Variable validateModel : JSON -> option IModel.
Variable server : list Effect -> Request -> option Response.

Lemma steady_setPath self path :
  steady (setPath makeSettings validateModel server self path).
Proof.
  unfold setPath.
  repeat first [ apply steady__patch | apply steady_throw_if_disposed
               | steady_step ].
Qed.

Lemma steady_setName self name :
  steady (setName makeSettings validateModel server self name).
Proof.
  unfold setName.
  repeat first [ apply steady__patch | apply steady_throw_if_disposed
               | steady_step ].
Qed.

Lemma steady_setType self type :
  steady (setType makeSettings validateModel server self type).
Proof.
  unfold setType.
  repeat first [ apply steady__patch | apply steady_throw_if_disposed
               | steady_step ].
Qed.

(** X20.  Under every operation of the connection, of the registry and of
    the REST layer, however it ends, the store only evolves: every
    connection and kernel connection is still there behind its reference;
    a connection has the id, the settings and the connector it had; what
    was disposed, connection or kernel connection, is still disposed; the
    registry map is the one it was, so that nothing is ever added to it or
    removed from it; and the trace has only grown. *)
Theorem operations_keep_the_store :
  (forall self record, steady (update self record))
  /\ (forall self, steady (dispose self))
  /\ (forall self, steady (clone makeSettings self))
  /\ (forall self path,
        steady (setPath makeSettings validateModel server self path))
  /\ (forall self name,
        steady (setName makeSettings validateModel server self name))
  /\ (forall self type,
        steady (setType makeSettings validateModel server self type))
  /\ (forall self options,
        steady (changeKernel makeSettings validateModel server self options))
  /\ (forall self, steady (shutdown makeSettings server self))
  /\ (forall record settings,
        steady (connectTo makeSettings record settings))
  /\ (forall options,
        steady (startNew makeSettings validateModel server options))
  /\ (forall record base, steady (updateFromServer record base))
  /\ (forall records base, steady (updateRunningSessions records base))
  /\ (forall settings,
        steady (listRunning makeSettings validateModel server settings))
  /\ (forall id settings,
        steady (findById makeSettings
                  (getSessionModel makeSettings validateModel server)
                  id settings))
  /\ (forall path settings,
        steady (findByPath makeSettings validateModel server path settings)).
Proof.
  repeat match goal with |- _ /\ _ => split end; intros.
  - apply steady_update.
  - apply steady_dispose.
  - apply steady_clone.
  - apply steady_setPath.
  - apply steady_setName.
  - apply steady_setType.
  - apply steady_changeKernel.
  - apply steady_shutdown.
  - apply steady_connectTo.
  - apply steady_startNew.
  - apply steady_updateFromServer.
  - apply steady_updateRunningSessions.
  - apply steady_listRunning.
  - apply steady_findById. intros. apply steady_getSessionModel.
  - apply steady_findByPath.
Qed.

(** X21.  [connectTo] does not track the connection it creates.  For a
    session nobody tracks, whose record has no kernel, a second
    [connectTo] with the same record is a miss again: it builds another
    connection, equal to the first in every field, behind another
    reference; the registry knows of neither. *)
Theorem connectTo_never_tracks
    (record : IModel) (settings : option ISettings) (w : World) :
  untracked (m_id record) (baseUrl (default makeSettings settings)) w ->
  m_kernel record = None ->
  let c := constructed makeSettings
             (createSession_options record (default makeSettings settings))
             (m_id record) in
  connectTo makeSettings record settings w
  = Ok (length (sessions w)) (with_sessions (sessions w ++ [c]) w)
  /\ (connectTo makeSettings record settings;;
      connectTo makeSettings record settings) w
     = Ok (S (length (sessions w))) (with_sessions (sessions w ++ [c; c]) w).
Proof.
  intros Hun Hk c.
  assert (H1 : connectTo makeSettings record settings w
               = Ok (length (sessions w))
                   (with_sessions (sessions w ++ [c]) w)).
  { rewrite (connectTo_miss _ _ _ _ Hun), createSession_spec.
    now rewrite Hk. }
  split; [exact H1|].
  rewrite (bind_Ok _ _ _ _ _ H1).
  rewrite connectTo_miss.
  - rewrite createSession_spec, Hk. cbn.
    rewrite length_app, <- app_assoc. cbn.
    now replace (length (sessions w) + 1)%nat with (S (length (sessions w)))
      by lia.
  - unfold untracked in *. cbn [runningSessions with_sessions sessions].
    eapply Forall_impl; [exact Hun|].
    intros r (s & Hs & Hid). exists s. split; [|exact Hid].
    rewrite lookup_app_l by (now apply lookup_lt_Some in Hs). exact Hs.
Qed.

Lemma shutdownSession_world id settings w :
  exists t,
    world_of (shutdownSession makeSettings server id settings w)
    = with_trace t w.
Proof.
  unfold shutdownSession, makeRequest, request, effect, settle, bind.
  destruct (server _ _) as [r|]; [|eexists; reflexivity]. cbn.
  destruct (rs_status r =? 404).
  - unfold json. destruct (rs_json r) as [d|]; [|eexists; reflexivity].
    cbn. destruct d; eexists; reflexivity.
  - destruct (rs_status r =? 410); [eexists; reflexivity|].
    destruct (negb (rs_status r =? 204)); eexists; reflexivity.
Qed.

(** X22.  [shutdown] asks the server to delete the session and does
    nothing to the connection: whatever the server answers, the
    connections and the kernel connections are afterwards exactly what
    they were.  The connection it was called on is not disposed by it, and
    neither is its kernel connection. *)
Theorem shutdown_leaves_the_connection_alone (self : SRef) (w : World) :
  sessions (world_of (shutdown makeSettings server self w)) = sessions w
  /\ kernels (world_of (shutdown makeSettings server self w)) = kernels w.
Proof.
  unfold shutdown, throw_if_disposed.
  destruct (sessions w !! self) as [s|] eqn:Hs.
  - rewrite bind_assoc, (getS_then _ _ _ _ Hs).
    destruct (_isDisposed s); [split; reflexivity|].
    rewrite ret_then, (getS_then _ _ _ _ Hs).
    destruct (shutdownSession_world (_id s) (Some (serverSettings s)) w)
      as [t ->]. split; reflexivity.
  - unfold bind, getS. rewrite Hs. split; reflexivity.
Qed.

End Invariants.

(** ** Instances of the further properties *)

Lemma update_applies_the_record_witness :
  exists w' s',
    update 0%nat record_same world0 = Ok tt w'
    /\ sessions w' !! 0%nat = Some s'
    /\ _path s' = Some "b.ipynb" /\ _name s' = "b".
Proof.
  destruct (update_applies_the_record 0%nat record_same world0
              (session0 (Some 0%nat)) 0%nat kernel0 connect0
              eq_refl eq_refl eq_refl eq_refl eq_refl)
    as (w' & s' & fresh & Hu & Hs & _ & _ & Hp & Hn & _).
  exists w', s'. repeat split; assumption.
Defined.

Lemma update_swaps_the_kernel_witness :
  exists w' s',
    update 0%nat record1 world0 = Ok tt w'
    /\ sessions w' !! 0%nat = Some s'
    /\ kernels w' !! 0%nat = Some (disposed kernel0)
    /\ _kernel s' = Some 1%nat.
Proof.
  destruct (update_swaps_the_kernel 0%nat record1 world0
              (session0 (Some 0%nat)) 0%nat kernel0 connect0
              eq_refl eq_refl eq_refl eq_refl eq_refl)
    as (w' & s' & fresh & Hu & Hs & _ & Hd & _ & Hk & _).
  exists w', s'. repeat split; assumption.
Defined.

Lemma update_same_record_again_is_silent_witness :
  exists w',
    update 0%nat record_same world0 = Ok tt w'
    /\ update 0%nat record_same w' = Ok tt w'.
Proof.
  exact (update_same_record_again_is_silent 0%nat record_same world0
           (session0 (Some 0%nat)) 0%nat kernel0
           {| km_id := "k-1"; km_name := "python3" |}
           eq_refl eq_refl eq_refl eq_refl eq_refl eq_refl).
Defined.

Lemma model_after_update_witness :
  exists w',
    update 0%nat record1 world0 = Ok tt w'
    /\ model 0%nat w'
       = Ok {| m_id := "s-1";
               m_kernel := Some {| km_id := "k-2"; km_name := "ir" |};
               m_path := Some "b.ipynb"; m_type := "notebook";
               m_name := "b" |} w'.
Proof.
  exact (model_after_update 0%nat record1 world0
           (session0 (Some 0%nat)) 0%nat kernel0 connect0
           eq_refl eq_refl eq_refl eq_refl eq_refl).
Defined.


Lemma disposed_connection_rejects_requests_witness :
  setPath settings0 decodeModel accepting 0%nat "b.ipynb" world_disposed
  = Throw (Error "Session is disposed") world_disposed
  /\ shutdown settings0 accepting 0%nat world_disposed
     = Throw (Error "Session is disposed") world_disposed.
Proof.
  destruct (disposed_connection_rejects_requests settings0 decodeModel
              accepting 0%nat world_disposed
              (set_isDisposed true (session0 (Some 0%nat)))
              eq_refl eq_refl) as (Hp & _ & _ & _ & Hs).
  split; [apply Hp|exact Hs].
Defined.

Lemma setters_end_as_the_answer_reads_witness :
  setPath settings0 decodeModel failing 0%nat "b.ipynb" world0
  = Throw (ResponseError {| rs_status := 500; rs_json := None |} None)
      (with_trace
         [Fetch (updateSession_request settings0 "s-1"
                   (JObj [("path", JStr "b.ipynb")]) (Some settings0))]
         world0).
Proof.
  exact (proj1 (setters_end_as_the_answer_reads settings0 decodeModel failing
                  0%nat world0 (session0 (Some 0%nat)) eq_refl eq_refl)
           "b.ipynb").
Defined.


Lemma update_during_patch_is_dropped_witness :
  let body := JObj [("path", JStr "c.ipynb")] in
  let answer :=
    Some {| rs_status := 200; rs_json := Some (encodeModel record1) |} in
  (_patch_begin settings0 0%nat body;;
   update 0%nat record1;;
   _patch_end decodeModel 0%nat answer) world0
  = (_patch_begin settings0 0%nat body;;
     _patch_end decodeModel 0%nat answer) world0.
Proof.
  exact (update_during_patch_is_dropped settings0 decodeModel 0%nat
           (JObj [("path", JStr "c.ipynb")]) record1
           (Some {| rs_status := 200;
                    rs_json := Some (encodeModel record1) |})
           world0 (session0 (Some 0%nat)) eq_refl).
Defined.

Lemma clone_makes_a_connection_of_its_own_witness :
  exists w' c,
    clone settings0 0%nat world_disposed = Ok 1%nat w'
    /\ sessions w'
       = [set_isDisposed true (session0 (Some 0%nat)); c]
    /\ _isDisposed c = false /\ _kernel c = Some 1%nat.
Proof.
  destruct (clone_makes_a_connection_of_its_own settings0 0%nat
              world_disposed (set_isDisposed true (session0 (Some 0%nat)))
              0%nat kernel0 connect0 eq_refl eq_refl eq_refl eq_refl)
    as (w' & c & Hc & Hs & _ & (Hd & _) & Hk & _).
  exists w', c. repeat split; assumption.
Defined.

Lemma clone_and_original_are_disposed_apart_witness :
  exists w' c w1,
    clone settings0 0%nat world0 = Ok c w'
    /\ dispose 0%nat w' = Ok tt w1
    /\ sessions w1 !! c = sessions w' !! c.
Proof.
  destruct (clone_and_original_are_disposed_apart settings0 0%nat world0
              (session0 (Some 0%nat)) 0%nat kernel0 connect0
              eq_refl eq_refl eq_refl eq_refl eq_refl)
    as (w' & c & k' & Hc & _ & (w1 & Hd & Hs & _) & _).
  exists w', c, w1. repeat split; assumption.
Defined.

Lemma updateFromServer_writes_only_to_its_session_witness :
  sessions (world_of (updateFromServer record1 "http://localhost:8888/"
                        world_untracked)) !! 1%nat
  = Some (session0 (Some 0%nat)).
Proof.
  apply (updateFromServer_writes_only_to_its_session record1
           "http://localhost:8888/" world_untracked 1%nat
           (session0 (Some 0%nat)) eq_refl).
  right. vm_compute. intros H. inversion H as [|? ? ? H']; inversion H'.
Defined.

Lemma reconciliation_leaves_untracked_alone_witness :
  sessions (world_of (updateRunningSessions [] "http://localhost:8888/"
                        world_untracked)) !! 1%nat
  = Some (session0 (Some 0%nat)).
Proof.
  apply (reconciliation_leaves_untracked_alone []
           "http://localhost:8888/" world_untracked 1%nat
           (session0 (Some 0%nat)) eq_refl).
  vm_compute. intros H. inversion H as [|? ? ? H']; inversion H'.
Defined.

Lemma reconciling_with_nothing_disposes_all_witness :
  exists w',
    updateRunningSessions [] "http://localhost:8888/" world_two = Ok [] w'
    /\ runningSessions w' = runningSessions world_two.
Proof.
  destruct (reconciling_with_nothing_disposes_all "http://localhost:8888/"
              world_two) as (w' & Hr & _ & _ & Hreg).
  - vm_compute. constructor.
    + exists (session0 (Some 0%nat)), 0%nat, kernel0.
      repeat split; reflexivity.
    + constructor; [|constructor].
      exists session1, 0%nat, kernel0. repeat split; reflexivity.
  - exists w'. split; assumption.
Defined.

Lemma findById_looks_in_the_registry_first_witness :
  findById settings0 (getSessionModel settings0 decodeModel failing)
    "s-1" None world0
  = model 0%nat world0
  /\ findById settings0 (getSessionModel settings0 decodeModel failing)
       "s-9" None world0
     = Throw (Error "No running session for id: s-9")
         (with_trace [Fetch (getSessionModel_request settings0 "s-9"
                               (Some settings0))] world0).
Proof.
  assert (Hall : Forall (fun r => is_Some (sessions world0 !! r))
                   (default []
                      (runningSessions world0
                         !! baseUrl (default settings0 None)))).
  { vm_compute. constructor; [|constructor]. eexists. reflexivity. }
  split.
  - exact (proj1 (findById_looks_in_the_registry_first settings0
                    (getSessionModel settings0 decodeModel failing)
                    "s-1" None world0 Hall)).
  - exact (findById_looks_in_the_registry_first settings0
             (getSessionModel settings0 decodeModel failing)
             "s-9" None world0 Hall).
Defined.

Lemma findByPath_looks_in_the_registry_first_witness :
  findByPath settings0 decodeModel listing "a.ipynb" None world0
  = model 0%nat world0
  /\ findByPath settings0 decodeModel listing "n.ipynb" None world0
     = Ok record_new
         (with_trace [Fetch (listRunning_request settings0 (Some settings0))]
            world0).
Proof.
  assert (Hall : Forall (fun r => is_Some (sessions world0 !! r))
                   (default []
                      (runningSessions world0
                         !! baseUrl (default settings0 None)))).
  { vm_compute. constructor; [|constructor]. eexists. reflexivity. }
  split.
  - exact (proj1 (findByPath_looks_in_the_registry_first settings0
                    decodeModel listing "a.ipynb" None world0 Hall)).
  - exact (findByPath_looks_in_the_registry_first settings0
             decodeModel listing "n.ipynb" None world0 Hall).
Defined.

Lemma connectTo_never_tracks_witness :
  exists c,
    (connectTo settings0 record_new None;;
     connectTo settings0 record_new None) world0
    = Ok 2%nat (with_sessions [session0 (Some 0%nat); c; c] world0).
Proof.
  eexists.
  apply (connectTo_never_tracks settings0 record_new None world0);
    [|reflexivity].
  unfold untracked. vm_compute. constructor; [|constructor].
  exists (session0 (Some 0%nat)). split; [reflexivity|discriminate].
Defined.


(** * Reconciliation, connection by connection *)








